(** * EcoQuant frontend: backtest normalisation, polling hook, strategy wizard

    A shallow embedding of three TypeScript sources of the repository:

    - [frontend/src/lib/api.ts]: [toNumber], [toInteger],
      [pickTopLevelOrMetric], [normalizeBacktestStatus],
      [normalizeBacktestResult];
    - [frontend/src/hooks/use-backtests.ts]: [useBacktestStatus] (its
      [refetchInterval]) and [useBacktestWithPolling];
    - [frontend/src/app/dashboard/strategies/new/page.tsx]: the three-step
      wizard [NewStrategyPage] with [handleNext] and [handleSubmit].

    JavaScript values are the values a JSON response body can hold, plus
    [undefined]; numbers are IEEE-754 binary64 values in the Standard
    Library's [spec_float]; strings are held as the bytes of their UTF-8
    form. *)

From Stdlib Require Import ZArith NArith Strings.Ascii Strings.String Floats.SpecFloat.
From stdpp Require Import gmap strings list.

Local Open Scope string_scope.
Local Open Scope Z_scope.

(* ================================================================== *)
(** * JavaScript values and the coercions the sources rely on          *)
(* ================================================================== *)

Module Js.

#[warnings="-register-all"]
Inductive JsValue : Type :=
  | JsUndefined
  | JsNull
  | JsBoolean (b : bool)
  | JsNumber (x : spec_float)
  | JsString (s : string)
  | JsArray (items : list JsValue)
  | JsObject (fields : gmap string JsValue).

(** binary64: 53 bits of precision, exponents below 1024. *)
Definition prec : Z := 53.
Definition emax : Z := 1024.

(** The number an integer literal denotes. *)
Definition of_Z (z : Z) : spec_float := binary_normalize prec emax z 0 false.

(** [a / b] and [a - b] on numbers. *)
Definition div (a b : spec_float) : spec_float := SFdiv prec emax a b.
Definition sub (a b : spec_float) : spec_float := SFsub prec emax a b.

(** [Number.isFinite(n)] for a number [n]. *)
Definition Number_isFinite (n : spec_float) : bool :=
  match n with
  | S754_zero _ | S754_finite _ _ _ => true
  | S754_infinity _ | S754_nan => false
  end.

(** The number of sign [s] and magnitude [q], an integer above zero: [q]
    with zeros appended up to the 53 bits of a binary64 mantissa, and the
    exponent lowered by as much. For a [q] of at most 53 bits this is the
    number [of_Z] gives for the integer; the integer part of a binary64
    number with fraction digits has at most 52. (A wider [q] is left as
    it is.) *)
Definition signed_integer (s : bool) (q : positive) : spec_float :=
  let d := Z.pos (digits2_pos q) in
  if d <? prec
  then S754_finite s (Z.to_pos (Z.shiftl (Z.pos q) (prec - d))) (d - prec)
  else S754_finite s q 0.

(** [Math.trunc(n)]: the integer part, the sign kept (so [-0.5] gives [-0]).
    A finite [m * 2^e] with [e < 0] loses its [-e] low bits, and what is
    left is the magnitude of the result. *)
Definition Math_trunc (n : spec_float) : spec_float :=
  match n with
  | S754_finite s m e =>
      if 0 <=? e then n
      else match Z.shiftr (Z.pos m) (- e) with
           | Z.pos q => signed_integer s q
           | _ => S754_zero s
           end
  | _ => n
  end.

(** [v === null || v === undefined]. *)
Definition is_nullish (v : JsValue) : bool :=
  match v with
  | JsUndefined | JsNull => true
  | _ => false
  end.

(** [a ?? b]. *)
Definition nullish_coalesce (a b : JsValue) : JsValue :=
  if is_nullish a then b else a.

(** Truthiness, as [||], [!] and [if] test it. *)
Definition ToBoolean (v : JsValue) : bool :=
  match v with
  | JsUndefined | JsNull => false
  | JsBoolean b => b
  | JsNumber (S754_zero _) | JsNumber S754_nan => false
  | JsNumber _ => true
  | JsString s => negb (String.eqb s EmptyString)
  | JsArray _ | JsObject _ => true
  end.

(** [a || b]. *)
Definition js_or (a b : JsValue) : JsValue :=
  if ToBoolean a then a else b.

(** Reading an own data property; an absent one reads as [undefined]. *)
Definition get (fields : gmap string JsValue) (key : string) : JsValue :=
  default JsUndefined (fields !! key).

(** [v[key]] for a [v] that is neither [null] nor [undefined], and a [key]
    that is no array index, not ["length"], and names nothing inherited from
    a prototype: only an object's own property can answer. Every metric key
    is such a key. *)
Definition member (v : JsValue) (key : string) : JsValue :=
  match v with
  | JsObject fields => get fields key
  | _ => JsUndefined
  end.

(** [v?.[key]]. *)
Definition optional_member (v : JsValue) (key : string) : JsValue :=
  if is_nullish v then JsUndefined else member v key.

(** [String.prototype.toLowerCase] on the letters [A]-[Z]; other characters
    are kept. (Outside ASCII, JavaScript lowercases only the Kelvin sign to an
    ASCII letter, [k], which none of the status words contains.) *)
Definition lower_ascii (c : ascii) : ascii :=
  let n := N_of_ascii c in
  if ((65 <=? n) && (n <=? 90))%N then ascii_of_N (n + 32) else c.

Fixpoint toLowerCase (s : string) : string :=
  match s with
  | EmptyString => EmptyString
  | String c rest => String (lower_ascii c) (toLowerCase rest)
  end.

(** What [String.prototype.trim] strips is the white space and the line
    terminators of ECMAScript. A string is held as the bytes of its UTF-8
    form, and these characters are, by the length of that form:
    - one byte: U+0009 to U+000D and U+0020;
    - two bytes: U+00A0 ([C2 A0]);
    - three bytes: U+1680 ([E1 9A 80]), U+2000 to U+200A ([E2 80 80] to
      [E2 80 8A]), U+2028 and U+2029 ([E2 80 A8], [E2 80 A9]), U+202F
      ([E2 80 AF]), U+205F ([E2 81 9F]), U+3000 ([E3 80 80]) and U+FEFF
      ([EF BB BF]). *)
Definition is_space (c : ascii) : bool :=
  let n := N_of_ascii c in
  ((9 <=? n) && (n <=? 13) || (n =? 32))%N.

Definition is_space2 (c1 c2 : ascii) : bool :=
  ((N_of_ascii c1 =? 194) && (N_of_ascii c2 =? 160))%N.

Definition is_space3 (c1 c2 c3 : ascii) : bool :=
  let a := N_of_ascii c1 in
  let b := N_of_ascii c2 in
  let c := N_of_ascii c3 in
  ((a =? 225) && (b =? 154) && (c =? 128)
   || (a =? 226) && (b =? 128)
      && ((128 <=? c) && (c <=? 138) || (c =? 168) || (c =? 169) || (c =? 175))
   || (a =? 226) && (b =? 129) && (c =? 159)
   || (a =? 227) && (b =? 128) && (c =? 128)
   || (a =? 239) && (b =? 187) && (c =? 191))%N.

(** Nothing but such characters, one after the other. *)
Fixpoint all_space (s : string) : bool :=
  match s with
  | EmptyString => true
  | String c1 r1 =>
      if is_space c1 then all_space r1
      else
        match r1 with
        | EmptyString => false
        | String c2 r2 =>
            if is_space2 c1 c2 then all_space r2
            else
              match r2 with
              | EmptyString => false
              | String c3 r3 => is_space3 c1 c2 c3 && all_space r3
              end
        end
  end.

(** [!s.trim()]: trimming leaves the empty string exactly when every
    character is white space. *)
Definition trim_is_empty (s : string) : bool := all_space s.

(** The two conversions between numbers and their text are built-ins of the
    engine (ECMAScript [Number::toString] and [StringToNumber]); the
    development is parametric in them. *)
Record Builtins : Type := {
  NumberToString : spec_float -> string;
  StringToNumber : string -> spec_float
}.

Section Coercions.
Context (B : Builtins).

(** [String(v)]. [None] stands for a thrown [TypeError]: a parsed JSON
    object whose own ["toString"] property shadows [Object.prototype.toString]
    has no callable [toString], and its [valueOf] returns the object itself.
    Arrays use [Array.prototype.join]: elements separated by commas, [null]
    and [undefined] elements printed as the empty string. *)
Fixpoint ToString (v : JsValue) : option string :=
  match v with
  | JsUndefined => Some "undefined"
  | JsNull => Some "null"
  | JsBoolean b => Some (if b then "true" else "false")
  | JsNumber x => Some (NumberToString B x)
  | JsString s => Some s
  | JsArray items =>
      (fix join (l : list JsValue) : option string :=
         match l with
         | [] => Some EmptyString
         | x :: rest =>
             match (if is_nullish x then Some EmptyString else ToString x) with
             | None => None
             | Some sx =>
                 match rest with
                 | [] => Some sx
                 | _ :: _ =>
                     match join rest with
                     | None => None
                     | Some sr => Some (sx ++ "," ++ sr)
                     end
                 end
             end
         end) items
  | JsObject fields =>
      match fields !! "toString" with
      | Some _ => None
      | None => Some "[object Object]"
      end
  end.

(** [Number(v)]; arrays and objects go through their string form
    ([valueOf] returns the object itself, so [toString] decides). *)
Definition ToNumber (v : JsValue) : option spec_float :=
  match v with
  | JsUndefined => Some S754_nan
  | JsNull => Some (S754_zero false)
  | JsBoolean b => Some (if b then of_Z 1 else of_Z 0)
  | JsNumber x => Some x
  | JsString s => Some (StringToNumber B s)
  | JsArray _ | JsObject _ =>
      match ToString v with
      | None => None
      | Some s => Some (StringToNumber B s)
      end
  end.
End Coercions.

(** A stand-in for the engine's built-ins, for closed examples whose outcome
    does not depend on them. *)
Definition no_numerals : Builtins :=
  {| NumberToString := fun _ => "NaN";
     StringToNumber := fun _ => S754_nan |}.

End Js.

Import Js.

(* ================================================================== *)
(** * [lib/api.ts]                                                     *)
(* ================================================================== *)

Module Api.

(** [BacktestStatusValue]: the five status words. *)
Definition BacktestStatusValues : list string :=
  ["pending"; "running"; "completed"; "failed"; "cancelled"].

Definition NUMERIC_METRIC_KEYS : list string :=
  ["total_return"; "cagr"; "sharpe_ratio"; "sortino_ratio"; "calmar_ratio";
   "mdd"; "win_rate"; "avg_win"; "avg_loss"; "profit_factor"].

Definition INTEGER_METRIC_KEYS : list string :=
  ["total_trades"; "winning_trades"; "losing_trades"].

(** The [switch] of [normalizeBacktestStatus], on the lowercased string. *)
Definition status_switch (normalized : string) : string :=
  if String.eqb normalized "pending" then normalized
  else if String.eqb normalized "running" then normalized
  else if String.eqb normalized "completed" then normalized
  else if String.eqb normalized "failed" then normalized
  else if String.eqb normalized "cancelled" then normalized
  else "pending".

(** [normalizeBacktestStatus] once its argument has been turned into a
    string. *)
Definition normalizeStatusString (s : string) : string :=
  status_switch (toLowerCase s).

Section WithBuiltins.
Context (B : Builtins).

(** [toNumber]: [None] is a thrown [TypeError]; the returned value is a
    number or [undefined]. *)
Definition toNumber (value : JsValue) : option JsValue :=
  if is_nullish value then Some JsUndefined
  else
    match (match value with
           | JsNumber x => Some x
           | _ => ToNumber B value
           end) with
    | None => None
    | Some n => Some (if Number_isFinite n then JsNumber n else JsUndefined)
    end.

Definition toInteger (value : JsValue) : option JsValue :=
  match toNumber value with
  | None => None
  | Some (JsNumber n) => Some (JsNumber (Math_trunc n))
  | Some _ => Some JsUndefined
  end.

Definition pickTopLevelOrMetric
    (payload : gmap string JsValue) (key : string) : JsValue :=
  let topLevel := get payload key in
  if negb (is_nullish topLevel) then topLevel
  else
    let nestedMetric := optional_member (get payload "metrics") key in
    if negb (is_nullish nestedMetric) then nestedMetric
    else JsUndefined.

Definition normalizeBacktestStatus (status : JsValue) : option string :=
  match ToString B (nullish_coalesce status (JsString EmptyString)) with
  | None => None
  | Some s => Some (normalizeStatusString s)
  end.

(** One [for ... of] loop of [normalizeBacktestResult]:
    [normalized[key] = conv(pickTopLevelOrMetric(payload, key))] for each
    key in turn; the first conversion that throws ends the call. *)
Fixpoint assign_metrics (conv : JsValue -> option JsValue)
    (payload : gmap string JsValue) (keys : list string)
    (normalized : gmap string JsValue) : option (gmap string JsValue) :=
  match keys with
  | [] => Some normalized
  | key :: rest =>
      match conv (pickTopLevelOrMetric payload key) with
      | None => None
      | Some v => assign_metrics conv payload rest (<[key := v]> normalized)
      end
  end.

Definition normalizeBacktestResult
    (payload : gmap string JsValue) : option (gmap string JsValue) :=
  match normalizeBacktestStatus (get payload "status") with
  | None => None
  | Some st =>
      let normalized := <["status" := JsString st]> payload in
      match assign_metrics toNumber payload NUMERIC_METRIC_KEYS normalized with
      | None => None
      | Some normalized =>
          assign_metrics toInteger payload INTEGER_METRIC_KEYS normalized
      end
  end.
End WithBuiltins.

(** The conversion [normalizeBacktestResult] applies to a metric key:
    [toInteger] in the second loop, [toNumber] in the first. *)
Definition metric_conversion (B : Builtins) (key : string)
    : JsValue -> option JsValue :=
  if decide (key ∈ INTEGER_METRIC_KEYS) then toInteger B else toNumber B.

(** Values whose coercions involve no [toString] method. *)
Definition primitive (v : JsValue) : bool :=
  match v with
  | JsArray _ | JsObject _ => false
  | _ => true
  end.

(** A payload of a run without trades: the rate is not a number, the factor
    is infinite, and one ratio is only given under [metrics]. *)
Definition no_trades_payload : gmap string JsValue :=
  <["status" := JsString "COMPLETED"]>
  (<["total_trades" := JsNumber (of_Z 0)]>
  (<["win_rate" := JsNumber S754_nan]>
  (<["profit_factor" := JsNumber (S754_infinity false)]>
  (<["sharpe_ratio" := JsNull]>
  (<["metrics" :=
       JsObject (<["sharpe_ratio" := JsNumber (div (of_Z 3) (of_Z 2))]> ∅)]>
   ∅))))).

End Api.

Import Api.

(* ================================================================== *)
(** * [hooks/use-backtests.ts]                                         *)
(* ================================================================== *)

Module Hooks.

(** What the hooks read of [statusQuery.data], the value
    [api.backtests.status] resolved to: its [status] is a string (the
    normalised status), [progress] is whatever the response carried, and
    [message] is a string or [null] ([None]). *)
Record StatusData : Type := {
  sd_status : string;
  sd_progress : JsValue;
  sd_message : option string
}.

(** What the hook reads of [resultQuery.data], the normalised result of
    [api.backtests.get]: its [status]. *)
Record ResultData : Type := {
  rd_status : string
}.

(** [data?.status]: the status string, or [undefined] while there is no
    data. *)
Definition optional_status (status : option string) : JsValue :=
  match status with
  | Some s => JsString s
  | None => JsUndefined
  end.

(** [normalizeBacktestStatus] at an operand that is a string or [undefined]:
    the string coercion of [status ?? ''] is then the string itself,
    respectively the empty string; no built-in is involved and nothing can
    throw. *)
Definition normalizeStringOrUndefined (status : JsValue) : string :=
  match status with
  | JsString s => normalizeStatusString s
  | _ => normalizeStatusString EmptyString
  end.

(** [status === "completed" || status === "failed" || status === "cancelled"]. *)
Definition isTerminal (status : string) : bool :=
  String.eqb status "completed" || String.eqb status "failed"
  || String.eqb status "cancelled".

(** The value of a [refetchInterval] callback: [false] or a period in ms. *)
Inductive RefetchInterval : Type :=
  | NoRefetch
  | RefetchEvery (ms : Z).

(** [refetchInterval] of [useBacktestStatus], at [query.state.data]. *)
Definition refetchInterval (data : option StatusData) : RefetchInterval :=
  let status := normalizeStringOrUndefined (optional_status (sd_status <$> data)) in
  if isTerminal status then NoRefetch else RefetchEvery 1000.

(** ** [useBacktestWithPolling] *)

Inductive QueryKey : Type :=
  | ListsKey                 (* backtestKeys.lists() *)
  | DetailKey (id : Z).      (* backtestKeys.detail(id) *)

Inductive Effect : Type :=
  | InvalidateQueries (key : QueryKey)
  | RefetchActiveQueries (key : QueryKey)
  | RefetchResult
  | ToastSuccess
  | ToastError (description : option (option string)).

#[global] Instance QueryKey_eq_dec : EqDecision QueryKey.
Proof. solve_decision. Defined.

#[global] Instance Effect_eq_dec : EqDecision Effect.
Proof. solve_decision. Defined.

(** [statusQuery.data?.message]: [None] is [undefined], [Some None] is
    [null]. *)
Definition optional_message (sd : option StatusData) : option (option string) :=
  sd_message <$> sd.

(** The dependencies of the effect that change between renders:
    [backtestId], [finalStatus], [isTerminalState] and
    [statusQuery.data?.message]. ([queryClient] and [refetchResult] keep their
    identity for the life of the component.) *)
Definition Deps : Type :=
  (option Z * string * bool * option (option string))%type.

(** The component's state: [backtestId] ([None] is [null]),
    [completedStateRef.current], and the dependencies of the last render,
    which React compares to decide whether the effect runs. *)
Record HookState : Type := {
  backtestId : option Z;
  completedStateRef : option string;
  effectDeps : option Deps
}.

Definition initial : HookState :=
  {| backtestId := None; completedStateRef := None; effectDeps := None |}.

(** [normalizeBacktestStatus(statusQuery.data?.status || resultQuery.data?.status)]. *)
Definition finalStatus (sd : option StatusData) (rd : option ResultData) : string :=
  normalizeStringOrUndefined
    (js_or (optional_status (sd_status <$> sd))
           (optional_status (rd_status <$> rd))).

(** [!!backtestId]: a job id that is neither [null] nor [0]. *)
Definition truthy_id (id : option Z) : option Z :=
  match id with
  | Some n => if n =? 0 then None else Some n
  | None => None
  end.

(** What the terminal-transition handler does once the marker is set. *)
Definition terminal_handler (id : Z) (status : string)
    (message : option (option string)) : list Effect :=
  ([InvalidateQueries ListsKey; RefetchActiveQueries ListsKey;
   InvalidateQueries (DetailKey id); RefetchResult]
  ++ (if String.eqb status "completed" then [ToastSuccess]
      else if String.eqb status "failed" then [ToastError message]
      else []))%list.

(** The body of the [useEffect]: the new marker and the side effects. *)
Definition effect_body (id : option Z) (status : string) (terminal : bool)
    (message : option (option string)) (marker : option string)
    : option string * list Effect :=
  match truthy_id id with
  | None => (None, [])
  | Some n =>
      if negb terminal then (marker, [])
      else if decide (marker = Some status) then (marker, [])
      else (Some status, terminal_handler n status message)
  end.

(** One render with the current query data, followed by the effect when a
    dependency changed (or on the first render). *)
Definition render (s : HookState) (sd : option StatusData)
    (rd : option ResultData) : HookState * list Effect :=
  let status := finalStatus sd rd in
  let terminal := isTerminal status in
  let message := optional_message sd in
  let deps : Deps := (backtestId s, status, terminal, message) in
  if decide (effectDeps s = Some deps) then (s, [])
  else
    let '(marker, effects) :=
      effect_body (backtestId s) status terminal message (completedStateRef s) in
    ({| backtestId := backtestId s;
        completedStateRef := marker;
        effectDeps := Some deps |}, effects).

(** What happens between two renders. [CallReset] is a call of [reset];
    [CallRunBacktest] is the part of [runBacktest] before the [await] and
    [RunBacktestResolved] the part after it; [QueryUpdate] is new data in a
    query and nothing else. *)
Inductive Action : Type :=
  | CallReset
  | CallRunBacktest
  | RunBacktestResolved (backtest_id : Z)
  | QueryUpdate.

Definition act (s : HookState) (a : Action) : HookState :=
  match a with
  | CallReset | CallRunBacktest =>
      {| backtestId := None; completedStateRef := None;
         effectDeps := effectDeps s |}
  | RunBacktestResolved backtest_id =>
      {| backtestId := Some backtest_id;
         completedStateRef := completedStateRef s;
         effectDeps := effectDeps s |}
  | QueryUpdate => s
  end.

(** An action and the render that follows it, with the data the two queries
    hold for the current key at that render. *)
Definition Step : Type := (Action * option StatusData * option ResultData)%type.

Definition step (s : HookState) (st : Step) : HookState * list Effect :=
  let '(a, sd, rd) := st in render (act s a) sd rd.

Fixpoint run (s : HookState) (steps : list Step) : HookState * list Effect :=
  match steps with
  | [] => (s, [])
  | st :: rest =>
      let '(s1, e1) := step s st in
      let '(s2, e2) := run s1 rest in
      (s2, (e1 ++ e2)%list)
  end.

(** The renders of one job: new query data, again and again. *)
Definition polls (renders : list (option StatusData * option ResultData))
    : list Step :=
  (fun r => (QueryUpdate, r.1, r.2)) <$> renders.

(** The value the hook returns, as far as the claims read it. *)
Record HookResult : Type := {
  isRunning : bool;
  status : string;
  progress : JsValue;
  message : option (option string);
  result_backtestId : option Z
}.

Definition hook_result (isPending : bool) (s : HookState)
    (sd : option StatusData) (rd : option ResultData) : HookResult :=
  let finalStatus := finalStatus sd rd in
  let isTerminalState := isTerminal finalStatus in
  {| isRunning :=
       isPending || (bool_decide (is_Some (truthy_id (backtestId s)))
                     && negb isTerminalState);
     status := finalStatus;
     progress :=
       nullish_coalesce
         (match sd with Some d => sd_progress d | None => JsUndefined end)
         (JsNumber (if isTerminalState then of_Z 100 else of_Z 0));
     message := optional_message sd;
     result_backtestId := backtestId s |}.

(** The status the hook reports at each render of a run, with the job id it
    is reported for. *)
Fixpoint reported (s : HookState) (steps : list Step)
    : list (option Z * string) :=
  match steps with
  | [] => []
  | (a, sd, rd) :: rest =>
      let s1 := (step s (a, sd, rd)).1 in
      (backtestId s1, status (hook_result false s1 sd rd)) :: reported s1 rest
  end.

(** How often the handler fetched the final result in a list of effects. *)
Definition result_fetches (effects : list Effect) : nat :=
  length (filter (fun e => e = RefetchResult) effects).

(** ** The phases of a job in the component *)


(** Job [id] is polled and no terminal status has been handled: the marker
    is clear, and the last render was not one of a terminal status of
    [id]. *)
Definition armed (id : Z) (s : HookState) : Prop :=
  backtestId s = Some id /\ completedStateRef s = None
  /\ forall status message,
       effectDeps s <> Some (Some id, status, true, message).

(** The terminal status [t] of job [id] has been handled. *)
Definition handled (id : Z) (t : string) (s : HookState) : Prop :=
  backtestId s = Some id /\ completedStateRef s = Some t.

(** ** Sample data *)

Definition running_data : StatusData :=
  {| sd_status := "running";
     sd_progress := JsNumber (of_Z 40);
     sd_message := None |}.

Definition completed_data : StatusData :=
  {| sd_status := "completed";
     sd_progress := JsNumber (of_Z 100);
     sd_message := Some "done" |}.

Definition completed_result : ResultData := {| rd_status := "completed" |}.



(** Job 7 is submitted; its result arrives, already completed, before the
    first answer of the status query, which still says running. *)
Definition overtaken_session : list Step :=
  [ (CallRunBacktest, None, None);
    (RunBacktestResolved 7, None, None);
    (QueryUpdate, None, Some completed_result);
    (QueryUpdate, Some running_data, Some completed_result) ].



End Hooks.

(* ================================================================== *)
(** * [app/dashboard/strategies/new/page.tsx]                          *)
(* ================================================================== *)

Module NewStrategy.

(** The [params] state. The periods, the look-back and the percentages are
    whole numbers throughout (integer literals and slider positions) and are
    kept as integers; the thresholds and the weight are fractions and are
    kept as binary64 numbers. *)
Record Params : Type := {
  fast_period : Z;
  slow_period : Z;
  use_ema : bool;
  buy_threshold : spec_float;
  panic_threshold : spec_float;
  sentiment_lookback : Z;
  stop_loss : Z;
  take_profit : Z;
  position_size : Z;
  ai_weight : spec_float;
  ignore_ai_on_strong_signal : bool
}.

(** [{ ...p, field: v }], one function per field. *)
Definition with_fast_period (v : Z) (p : Params) : Params :=
  {| fast_period := v;
     slow_period := slow_period p;
     use_ema := use_ema p;
     buy_threshold := buy_threshold p;
     panic_threshold := panic_threshold p;
     sentiment_lookback := sentiment_lookback p;
     stop_loss := stop_loss p;
     take_profit := take_profit p;
     position_size := position_size p;
     ai_weight := ai_weight p;
     ignore_ai_on_strong_signal := ignore_ai_on_strong_signal p |}.

Definition with_slow_period (v : Z) (p : Params) : Params :=
  {| fast_period := fast_period p;
     slow_period := v;
     use_ema := use_ema p;
     buy_threshold := buy_threshold p;
     panic_threshold := panic_threshold p;
     sentiment_lookback := sentiment_lookback p;
     stop_loss := stop_loss p;
     take_profit := take_profit p;
     position_size := position_size p;
     ai_weight := ai_weight p;
     ignore_ai_on_strong_signal := ignore_ai_on_strong_signal p |}.

Definition with_use_ema (v : bool) (p : Params) : Params :=
  {| fast_period := fast_period p;
     slow_period := slow_period p;
     use_ema := v;
     buy_threshold := buy_threshold p;
     panic_threshold := panic_threshold p;
     sentiment_lookback := sentiment_lookback p;
     stop_loss := stop_loss p;
     take_profit := take_profit p;
     position_size := position_size p;
     ai_weight := ai_weight p;
     ignore_ai_on_strong_signal := ignore_ai_on_strong_signal p |}.

Definition with_buy_threshold (v : spec_float) (p : Params) : Params :=
  {| fast_period := fast_period p;
     slow_period := slow_period p;
     use_ema := use_ema p;
     buy_threshold := v;
     panic_threshold := panic_threshold p;
     sentiment_lookback := sentiment_lookback p;
     stop_loss := stop_loss p;
     take_profit := take_profit p;
     position_size := position_size p;
     ai_weight := ai_weight p;
     ignore_ai_on_strong_signal := ignore_ai_on_strong_signal p |}.

Definition with_panic_threshold (v : spec_float) (p : Params) : Params :=
  {| fast_period := fast_period p;
     slow_period := slow_period p;
     use_ema := use_ema p;
     buy_threshold := buy_threshold p;
     panic_threshold := v;
     sentiment_lookback := sentiment_lookback p;
     stop_loss := stop_loss p;
     take_profit := take_profit p;
     position_size := position_size p;
     ai_weight := ai_weight p;
     ignore_ai_on_strong_signal := ignore_ai_on_strong_signal p |}.

Definition with_sentiment_lookback (v : Z) (p : Params) : Params :=
  {| fast_period := fast_period p;
     slow_period := slow_period p;
     use_ema := use_ema p;
     buy_threshold := buy_threshold p;
     panic_threshold := panic_threshold p;
     sentiment_lookback := v;
     stop_loss := stop_loss p;
     take_profit := take_profit p;
     position_size := position_size p;
     ai_weight := ai_weight p;
     ignore_ai_on_strong_signal := ignore_ai_on_strong_signal p |}.

Definition with_stop_loss (v : Z) (p : Params) : Params :=
  {| fast_period := fast_period p;
     slow_period := slow_period p;
     use_ema := use_ema p;
     buy_threshold := buy_threshold p;
     panic_threshold := panic_threshold p;
     sentiment_lookback := sentiment_lookback p;
     stop_loss := v;
     take_profit := take_profit p;
     position_size := position_size p;
     ai_weight := ai_weight p;
     ignore_ai_on_strong_signal := ignore_ai_on_strong_signal p |}.

Definition with_take_profit (v : Z) (p : Params) : Params :=
  {| fast_period := fast_period p;
     slow_period := slow_period p;
     use_ema := use_ema p;
     buy_threshold := buy_threshold p;
     panic_threshold := panic_threshold p;
     sentiment_lookback := sentiment_lookback p;
     stop_loss := stop_loss p;
     take_profit := v;
     position_size := position_size p;
     ai_weight := ai_weight p;
     ignore_ai_on_strong_signal := ignore_ai_on_strong_signal p |}.

Definition with_position_size (v : Z) (p : Params) : Params :=
  {| fast_period := fast_period p;
     slow_period := slow_period p;
     use_ema := use_ema p;
     buy_threshold := buy_threshold p;
     panic_threshold := panic_threshold p;
     sentiment_lookback := sentiment_lookback p;
     stop_loss := stop_loss p;
     take_profit := take_profit p;
     position_size := v;
     ai_weight := ai_weight p;
     ignore_ai_on_strong_signal := ignore_ai_on_strong_signal p |}.

Definition with_ai_weight (v : spec_float) (p : Params) : Params :=
  {| fast_period := fast_period p;
     slow_period := slow_period p;
     use_ema := use_ema p;
     buy_threshold := buy_threshold p;
     panic_threshold := panic_threshold p;
     sentiment_lookback := sentiment_lookback p;
     stop_loss := stop_loss p;
     take_profit := take_profit p;
     position_size := position_size p;
     ai_weight := v;
     ignore_ai_on_strong_signal := ignore_ai_on_strong_signal p |}.

Definition with_ignore_ai_on_strong_signal (v : bool) (p : Params) : Params :=
  {| fast_period := fast_period p;
     slow_period := slow_period p;
     use_ema := use_ema p;
     buy_threshold := buy_threshold p;
     panic_threshold := panic_threshold p;
     sentiment_lookback := sentiment_lookback p;
     stop_loss := stop_loss p;
     take_profit := take_profit p;
     position_size := position_size p;
     ai_weight := ai_weight p;
     ignore_ai_on_strong_signal := v |}.

(** The number a decimal literal [n/d] (such as [0.2], with [n = 2] and
    [d = 10]) denotes: the binary64 value nearest to it. *)
Definition decimal (n d : Z) : spec_float := div (of_Z n) (of_Z d).

Inductive Category : Type := technical | ai.

(** [strategyTypes], without the fields that only the display uses (name,
    description text, icon and colours). *)
Record StrategyType : Type := {
  id : string;
  category : Category
}.

Definition strategyTypes : list StrategyType :=
  [ {| id := "sma_crossover"; category := technical |};
    {| id := "ema_crossover"; category := technical |};
    {| id := "sentiment_sma"; category := ai |};
    {| id := "sentiment_sma_aggressive"; category := ai |};
    {| id := "sentiment_sma_conservative"; category := ai |} ].

(** [strategyTypes.find(s => s.id === type)]. *)
Definition find_strategy (type : string) : option StrategyType :=
  List.find (fun s => String.eqb (id s) type) strategyTypes.

(** [defaultParams[type]], as the merge [{ ...prev, ...typeDefaults }] it is
    used for; [None] when [type] is no key of the table. *)
Definition defaultParams (type : string) : option (Params -> Params) :=
  if String.eqb type "sma_crossover" then
    Some (fun prev =>
      with_position_size 100 (with_take_profit 0 (with_stop_loss 0
        (with_slow_period 30 (with_fast_period 10 prev)))))
  else if String.eqb type "ema_crossover" then
    Some (fun prev =>
      with_position_size 100 (with_take_profit 0 (with_stop_loss 0
        (with_use_ema true (with_slow_period 30 (with_fast_period 10 prev))))))
  else if String.eqb type "sentiment_sma" then
    Some (fun prev =>
      with_ignore_ai_on_strong_signal false (with_ai_weight (decimal 5 10)
        (with_position_size 100 (with_take_profit 10 (with_stop_loss 5
          (with_sentiment_lookback 3
            (with_panic_threshold (SFopp (decimal 5 10))
              (with_buy_threshold (decimal 2 10)
                (with_slow_period 30 (with_fast_period 10 prev))))))))))
  else if String.eqb type "sentiment_sma_aggressive" then
    Some (fun prev =>
      with_ignore_ai_on_strong_signal true (with_ai_weight (decimal 3 10)
        (with_position_size 100 (with_take_profit 15 (with_stop_loss 3
          (with_sentiment_lookback 2
            (with_panic_threshold (SFopp (decimal 3 10))
              (with_buy_threshold (decimal 1 10)
                (with_slow_period 20 (with_fast_period 5 prev))))))))))
  else if String.eqb type "sentiment_sma_conservative" then
    Some (fun prev =>
      with_ignore_ai_on_strong_signal false (with_ai_weight (decimal 7 10)
        (with_position_size 50 (with_take_profit 8 (with_stop_loss 7
          (with_sentiment_lookback 5
            (with_panic_threshold (SFopp (decimal 7 10))
              (with_buy_threshold (decimal 4 10)
                (with_slow_period 50 (with_fast_period 15 prev))))))))))
  else None.

(** The component's state. [selectedType] is [None] for [null]. *)
Record State : Type := {
  step : Z;
  selectedType : option string;
  strategyName : string;
  advancedOpen : bool;
  params : Params
}.

Definition initial : State :=
  {| step := 1;
     selectedType := None;
     strategyName := EmptyString;
     advancedOpen := false;
     params :=
       {| fast_period := 10;
          slow_period := 30;
          use_ema := false;
          buy_threshold := decimal 2 10;
          panic_threshold := SFopp (decimal 5 10);
          sentiment_lookback := 3;
          stop_loss := 0;
          take_profit := 0;
          position_size := 100;
          ai_weight := decimal 5 10;
          ignore_ai_on_strong_signal := false |} |}.

Definition with_step (v : Z) (s : State) : State :=
  {| step := v; selectedType := selectedType s;
     strategyName := strategyName s; advancedOpen := advancedOpen s;
     params := params s |}.

Definition with_selectedType (v : option string) (s : State) : State :=
  {| step := step s; selectedType := v;
     strategyName := strategyName s; advancedOpen := advancedOpen s;
     params := params s |}.

Definition with_strategyName (v : string) (s : State) : State :=
  {| step := step s; selectedType := selectedType s;
     strategyName := v; advancedOpen := advancedOpen s;
     params := params s |}.

Definition with_advancedOpen (v : bool) (s : State) : State :=
  {| step := step s; selectedType := selectedType s;
     strategyName := strategyName s; advancedOpen := v;
     params := params s |}.

Definition with_params (v : Params) (s : State) : State :=
  {| step := step s; selectedType := selectedType s;
     strategyName := strategyName s; advancedOpen := advancedOpen s;
     params := v |}.

(** [!selectedType]: [null] or the empty string. *)
Definition no_type (t : option string) : bool :=
  match t with
  | None => true
  | Some s => String.eqb s EmptyString
  end.

(** [strategyTypes.find(s => s.id === selectedType)]. *)
Definition selectedStrategy (s : State) : option StrategyType :=
  match selectedType s with
  | Some t => find_strategy t
  | None => None
  end.

(** [selectedStrategy?.category === "ai"]. *)
Definition isAiStrategy (s : State) : bool :=
  match selectedStrategy s with
  | Some {| category := ai |} => true
  | _ => false
  end.

(** [{ ...params, position_size: params.position_size / 100 }]: the
    parameters, with the position size replaced by the fraction. *)
Record LogicConfig : Type := {
  config_params : Params;
  config_position_size : spec_float
}.

(** The argument of [createStrategy.mutateAsync]. [description] is the
    strategy type whose description text is sent, if any. *)
Record CreateStrategyInput : Type := {
  name : string;
  description : option StrategyType;
  strategy_type : string;
  logic_config : LogicConfig
}.

(** The error toasts of the page. *)
Inductive ToastMessage : Type :=
  | SelectStrategyType        (* handleNext, step 1 *)
  | FastMustBeBelowSlow       (* handleNext, step 2 *)
  | EnterStrategyName.        (* handleSubmit *)

Inductive Effect : Type :=
  | ToastError (message : ToastMessage)
  | CreateStrategy (input : CreateStrategyInput).

(** [setSelectedType(type)] followed by the merge of the type's defaults,
    shared by [handleTypeSelect] and by the effect on the search
    parameters. *)
Definition select_type (type : string) (s : State) : State :=
  let s := with_selectedType (Some type) s in
  match defaultParams type with
  | Some typeDefaults => with_params (typeDefaults (params s)) s
  | None => s
  end.

(** The effect on [searchParams]; [type] is [searchParams.get("type")]. *)
Definition searchParams_effect (type : option string) (s : State) : State :=
  match type with
  | Some t =>
      if negb (String.eqb t EmptyString) && bool_decide (is_Some (find_strategy t))
      then select_type t s
      else s
  | None => s
  end.

Definition handleTypeSelect (typeId : string) (s : State) : State :=
  select_type typeId s.

Definition handleNext (s : State) : State * list Effect :=
  if (step s =? 1) && no_type (selectedType s) then
    (s, [ToastError SelectStrategyType])
  else if (step s =? 2) && (fast_period (params s) >=? slow_period (params s)) then
    (s, [ToastError FastMustBeBelowSlow])
  else (with_step (Z.min (step s + 1) 3) s, []).

Definition handleBack (s : State) : State :=
  with_step (Z.max (step s - 1) 1) s.

(** [handleSubmit]. With [selectedType] still [null],
    [selectedType!.toLowerCase()] throws inside the [try] and the [catch]
    swallows it: nothing is sent. What follows the request
    ([router.push] on success) does not touch the state. *)
Definition handleSubmit (s : State) : State * list Effect :=
  if trim_is_empty (strategyName s) then
    (s, [ToastError EnterStrategyName])
  else
    let backendParams :=
      {| config_params := params s;
         config_position_size :=
           div (of_Z (position_size (params s))) (of_Z 100) |} in
    match selectedType s with
    | None => (s, [])
    | Some t =>
        (s, [CreateStrategy
               {| name := strategyName s;
                  description := selectedStrategy s;
                  strategy_type := toLowerCase t;
                  logic_config := backendParams |}])
    end.

(** What the user and the router can do to the page; [PanelExited] is the
    end of the exit animation of a step panel. *)
Inductive Event : Type :=
  | SearchParams (type : option string)
  | ClickType (typeId : string)
  | SlideFastPeriod (value : Z)
  | SlideSlowPeriod (value : Z)
  | SlideBuyThreshold (value : Z)
  | SlidePanicThreshold (value : Z)
  | SlideSentimentLookback (value : Z)
  | SlideStopLoss (value : Z)
  | SlideTakeProfit (value : Z)
  | SlidePositionSize (value : Z)
  | SlideAiWeight (value : Z)
  | SwitchIgnoreAi (checked : bool)
  | ToggleAdvanced (open : bool)
  | ClickNext
  | ClickBack
  | TypeName (value : string)
  | ClickSubmit
  | PanelExited.

(** The page on screen. The three step panels are the children of
    [<AnimatePresence mode="wait">], each under [step === n], with an [exit]
    animation of 0.3 seconds. framer-motion keeps one of them mounted: when
    [step] changes, the panel of the step before stays on screen while its
    exit animation runs, as the element of the last render in which it was
    a child, so its controls still answer, with the handlers and the
    [params] of that render; the panel of the new step is mounted when the
    exit has ended. A panel whose step is the current one again is a child
    again and rendered anew.

    [current] is the component's state; [shown] is the state the mounted
    panel was rendered with last, and the panel is the one of [step shown].
    The navigation buttons are outside [AnimatePresence] and are always
    rendered with [current]. *)
Record Page : Type := {
  current : State;
  shown : State
}.

(** The page after its first render. *)
Definition opened : Page := {| current := initial; shown := initial |}.

(** What the handler of an event does to the component's state. The sliders
    and the switch of a step panel call
    [setParams({ ...params, field: value })] with the [params] of the render
    of their panel; the other handlers read the state of the current render
    or set a state without reading one. *)
Definition dispatch (pg : Page) (e : Event) : State * list Effect :=
  let s := current pg in
  let set f := (with_params (f (params (shown pg))) s, []) in
  match e with
  | SearchParams type => (searchParams_effect type s, [])
  | ClickType typeId => (handleTypeSelect typeId s, [])
  | SlideFastPeriod value => set (with_fast_period value)
  | SlideSlowPeriod value => set (with_slow_period value)
  | SlideBuyThreshold value =>
      set (with_buy_threshold (div (of_Z value) (of_Z 10)))
  | SlidePanicThreshold value =>
      set (with_panic_threshold (sub (div (of_Z value) (of_Z 5)) (of_Z 1)))
  | SlideSentimentLookback value => set (with_sentiment_lookback value)
  | SlideStopLoss value => set (with_stop_loss value)
  | SlideTakeProfit value => set (with_take_profit value)
  | SlidePositionSize value => set (with_position_size value)
  | SlideAiWeight value =>
      set (with_ai_weight (div (of_Z value) (of_Z 100)))
  | SwitchIgnoreAi checked => set (with_ignore_ai_on_strong_signal checked)
  | ToggleAdvanced open => (with_advancedOpen open s, [])
  | ClickNext => handleNext s
  | ClickBack => (handleBack s, [])
  | TypeName value => (with_strategyName value s, [])
  | ClickSubmit => handleSubmit s
  | PanelExited => (s, [])
  end.

(** The render that follows: with the state [s] the handler left, the
    mounted panel is rendered anew when it is the panel of the current step
    and when it has just been mounted; a panel that is exiting stays as it
    was. *)
Definition rendered (pg : Page) (e : Event) (s : State) : Page :=
  {| current := s;
     shown :=
       match e with
       | PanelExited => s
       | _ => if step s =? step (shown pg) then s else shown pg
       end |}.

Definition handle (pg : Page) (e : Event) : Page * list Effect :=
  (rendered pg e (dispatch pg e).1, (dispatch pg e).2).

(** Modelled from the spec: the [Slider] of [components/ui/slider], whose
    source is not part of the sources at hand. It hands [onValueChange] a
    position between [min] and [max], on the grid of [step]; the claim on the
    position size states this for its slider ("constrained to [10, 100]"). *)
Definition slider (min max step value : Z) : bool :=
  (min <=? value) && (value <=? max) && ((value - min) mod step =? 0).

(** When the page lets an event happen. The controls of a step panel are
    there while that panel is mounted ([step shown]; those of the AI
    strategies under the [isAiStrategy] of its render); the navigation
    buttons follow the current state ([step < 3 ? ... : ...], [disabled]).
    An exit animation can end when the mounted panel is not the one of the
    current step. The search-parameter effect can run at any time. Whether
    the collapsible of the advanced settings is open, and whether a request
    is pending, is not asked: the events are possible in more states than on
    the page. *)
Definition enabled (pg : Page) (e : Event) : bool :=
  let s := current pg in
  let panel := shown pg in
  match e with
  | SearchParams _ => true
  | ClickType typeId =>
      (step panel =? 1) && bool_decide (is_Some (find_strategy typeId))
  | SlideFastPeriod value => (step panel =? 2) && slider 3 50 1 value
  | SlideSlowPeriod value => (step panel =? 2) && slider 10 200 5 value
  | SlideBuyThreshold value =>
      (step panel =? 2) && isAiStrategy panel && slider 0 9 1 value
  | SlidePanicThreshold value =>
      (step panel =? 2) && isAiStrategy panel && slider 0 9 1 value
  | SlideSentimentLookback value =>
      (step panel =? 2) && isAiStrategy panel && slider 1 14 1 value
  | SlideStopLoss value => (step panel =? 2) && slider 0 30 1 value
  | SlideTakeProfit value => (step panel =? 2) && slider 0 50 1 value
  | SlidePositionSize value => (step panel =? 2) && slider 10 100 10 value
  | SlideAiWeight value =>
      (step panel =? 2) && isAiStrategy panel && slider 10 100 10 value
  | SwitchIgnoreAi _ => (step panel =? 2) && isAiStrategy panel
  | ToggleAdvanced _ => step panel =? 2
  | ClickNext =>
      (step s <? 3) && negb ((step s =? 1) && no_type (selectedType s))
  | ClickBack => negb (step s =? 1)
  | TypeName _ => step panel =? 3
  | ClickSubmit => (step s =? 3) && negb (trim_is_empty (strategyName s))
  | PanelExited => negb (step panel =? step s)
  end.

(** A session: enabled events, one after the other; the effects in order. *)
Fixpoint run (pg : Page) (events : list Event) : option (Page * list Effect) :=
  match events with
  | [] => Some (pg, [])
  | e :: rest =>
      if enabled pg e then
        let '(pg1, e1) := handle pg e in
        match run pg1 rest with
        | Some (pg2, e2) => Some (pg2, (e1 ++ e2)%list)
        | None => None
        end
      else None
  end.

(** The pages a session can lead to. *)
Inductive reachable : Page -> Prop :=
  | reachable_opened : reachable opened
  | reachable_step pg e :
      reachable pg -> enabled pg e = true -> reachable (handle pg e).1.

(** What holds of every state of the component, and of every state a panel
    was rendered with: the step is one of the three, and the position size
    is a percentage between 10 and 100. *)
Definition invariant (s : State) : Prop :=
  1 <= step s <= 3
  /\ 10 <= position_size (params s) <= 100.

(** A session: the conservative AI strategy, the fast period moved up to
    50 and refused, then moved to 20, half of the default position size,
    a name, and the submission; each step panel has gone before the next
    is used. *)
Definition sample_session : list Event :=
  [ ClickType "sentiment_sma_conservative"; ClickNext; PanelExited;
    SlideFastPeriod 50; ClickNext;
    SlideFastPeriod 20; SlidePositionSize 30; ClickNext; PanelExited;
    TypeName "calm"; ClickSubmit ].

(** A session in a hurry. The SMA strategy is taken through the three steps
    and named; the user goes back to step 2 and on to step 3 again (the
    periods are 10 and 30, and [handleNext] lets them pass); while the panel
    of step 2 is still leaving, its slider of the fast period is moved to 50
    and the strategy is saved. *)
Definition hasty_session : list Event :=
  [ ClickType "sma_crossover"; ClickNext; PanelExited;
    ClickNext; PanelExited; TypeName "quick";
    ClickBack; PanelExited;
    ClickNext; SlideFastPeriod 50; ClickSubmit ].

End NewStrategy.

(* ================================================================== *)
(** * More of [lib/api.ts]: the interceptors and the backtest methods  *)
(* ================================================================== *)

Module ApiClient.

(** What the interceptors touch of the browser: [localStorage], the path of
    the page, and the address [window.location.href] was last set to. *)
Record Window : Type := {
  localStorage : gmap string string;
  pathname : string;
  href : option string
}.

(** [localStorage.setItem(key, value)] and [localStorage.removeItem(key)]. *)
Definition setItem (key value : string) (w : Window) : Window :=
  {| localStorage := <[key := value]> (localStorage w);
     pathname := pathname w; href := href w |}.

Definition removeItem (key : string) (w : Window) : Window :=
  {| localStorage := delete key (localStorage w);
     pathname := pathname w; href := href w |}.

(** [window.location.href = url]. *)
Definition navigate (url : string) (w : Window) : Window :=
  {| localStorage := localStorage w; pathname := pathname w;
     href := Some url |}.

(** [s.includes(needle)]: [needle] starts at some position of [s]. *)
Fixpoint includes (needle s : string) : bool :=
  String.prefix needle s
  || match s with
     | EmptyString => false
     | String _ rest => includes needle rest
     end.

(** The request interceptor, on [config.headers] ([None] when the config has
    no headers). [window] is [None] where [typeof window] is ["undefined"].
    A token is used when it is there and not the empty string. *)
Definition request_interceptor (window : option Window)
    (headers : option (gmap string string)) : option (gmap string string) :=
  match window with
  | None => headers
  | Some w =>
      match localStorage w !! "access_token", headers with
      | Some token, Some h =>
          if negb (String.eqb token EmptyString)
          then Some (<["Authorization" := "Bearer " ++ token]> h)
          else headers
      | _, _ => headers
      end
  end.

(** The error branch of the response interceptor, on
    [error.response?.status] ([None] without a response). The error itself
    is always passed on ([Promise.reject(error)]); what is modelled is what
    happens to the browser. *)
Definition response_error_interceptor (status : option Z)
    (window : option Window) : option Window :=
  match status with
  | Some 401 =>
      match window with
      | None => None
      | Some w =>
          let w := removeItem "access_token" w in
          if negb (includes "/login" (pathname w))
          then Some (navigate "/login" w)
          else Some w
      end
  | _ => window
  end.

(** [api.backtests.status] and [api.backtests.run], on the response body:
    [{ ...response.data, status: normalizeBacktestStatus(response.data.status) }]. *)
Definition with_normalized_status (B : Builtins)
    (data : gmap string JsValue) : option (gmap string JsValue) :=
  match normalizeBacktestStatus B (get data "status") with
  | None => None
  | Some st => Some (<["status" := JsString st]> data)
  end.

Definition backtests_status := with_normalized_status.
Definition backtests_run := with_normalized_status.

(** [api.backtests.get]. *)
Definition backtests_get := normalizeBacktestResult.

(** [api.backtests.list], on the [items] of the response body:
    [response.data.items.map((item) => normalizeBacktestResult(item))]; the
    first item that throws ends the call. *)
Fixpoint backtests_list_items (B : Builtins)
    (items : list (gmap string JsValue)) : option (list (gmap string JsValue)) :=
  match items with
  | [] => Some []
  | item :: rest =>
      match normalizeBacktestResult B item with
      | None => None
      | Some normalized =>
          match backtests_list_items B rest with
          | None => None
          | Some others => Some (normalized :: others)
          end
      end
  end.

End ApiClient.

(* ================================================================== *)
(** * More of [hooks/use-backtests.ts]: keys, list polling, enabling   *)
(* ================================================================== *)

Module BacktestKeys.

(** An element of a query key: a string, a number, or the filter object
    [{ strategyId, page, pageSize }] of a list key ([None] for
    [undefined]). *)
Inductive KeyPart : Type :=
  | KeyString (s : string)
  | KeyNumber (n : Z)
  | KeyFilter (strategyId page pageSize : option Z).

#[global] Instance KeyPart_eq_dec : EqDecision KeyPart.
Proof. solve_decision. Defined.

(** [backtestKeys]. *)
Definition all : Datatypes.list KeyPart := [KeyString "backtests"].
Definition lists : Datatypes.list KeyPart := (all ++ [KeyString "list"])%list.
Definition list (strategyId page pageSize : option Z) : Datatypes.list KeyPart :=
  (lists ++ [KeyFilter strategyId page pageSize])%list.
Definition details : Datatypes.list KeyPart := (all ++ [KeyString "detail"])%list.
Definition detail (id : Z) : Datatypes.list KeyPart :=
  (details ++ [KeyNumber id])%list.
Definition status (backtestId : Z) : Datatypes.list KeyPart :=
  (all ++ [KeyString "status"; KeyNumber backtestId])%list.

(** The key a [Hooks.QueryKey] of the terminal handler stands for. *)
Definition key_of (k : Hooks.QueryKey) : Datatypes.list KeyPart :=
  match k with
  | Hooks.ListsKey => lists
  | Hooks.DetailKey id => detail id
  end.

(** Which queries [invalidateQueries({ queryKey })] and
    [refetchQueries({ queryKey })] reach: those whose key begins with
    [queryKey], element by element. (The keys used as filters here hold
    strings and numbers only.) *)
Definition reaches (queryKey key : Datatypes.list KeyPart) : Prop :=
  queryKey `prefix_of` key.

End BacktestKeys.

Module Queries.
Import Hooks.

(** [refetchInterval] of [useBacktests], at [query.state.data?.items]
    ([None] while there is no data): the items are normalised results, of
    which the callback reads the status. *)
Definition useBacktests_refetchInterval (livePolling : bool)
    (items : option (list ResultData)) : RefetchInterval :=
  if negb livePolling then NoRefetch
  else
    let items := default [] items in
    let hasRunningBacktest :=
      existsb
        (fun item =>
           let status :=
             normalizeStringOrUndefined (optional_status (Some (rd_status item))) in
           String.eqb status "pending" || String.eqb status "running")
        items in
    if hasRunningBacktest then RefetchEvery 1500 else NoRefetch.

(** [enabled] of [useBacktest(id)]: [!!id && id > 0]. *)
Definition useBacktest_enabled (id : Z) : bool :=
  negb (id =? 0) && (0 <? id).

(** [enabled] of [useBacktestStatus(backtestId, enabled)]:
    [!!backtestId && enabled]. *)
Definition useBacktestStatus_enabled (backtestId : option Z)
    (enabled : bool) : bool :=
  bool_decide (is_Some (truthy_id backtestId)) && enabled.

(** [backtestId || 0]. *)
Definition id_or_zero (backtestId : option Z) : Z :=
  default 0 (truthy_id backtestId).

(** The two queries of [useBacktestWithPolling]:
    [useBacktestStatus(backtestId, !!backtestId)] and
    [useBacktest(backtestId || 0)]. *)
Definition statusQuery_enabled (s : HookState) : bool :=
  useBacktestStatus_enabled (backtestId s)
    (bool_decide (is_Some (truthy_id (backtestId s)))).

Definition resultQuery_enabled (s : HookState) : bool :=
  useBacktest_enabled (id_or_zero (backtestId s)).

(** The key of the status query: [backtestKeys.status(backtestId || 0)]. *)
Definition statusQuery_key (s : HookState) : list BacktestKeys.KeyPart :=
  BacktestKeys.status (id_or_zero (backtestId s)).

End Queries.

(* ================================================================== *)
(** * More of the pages                                                *)
(* ================================================================== *)

Module Numbers.

(** An integer among the numbers: a zero, or a finite [m * 2^e] whose value
    has no fraction: [0 <= e], or the [-e] low bits of [m] are all zero. *)
Definition is_integer (n : spec_float) : bool :=
  match n with
  | S754_zero _ => true
  | S754_finite _ m e => (0 <=? e) || (Z.land (Z.pos m) (Z.ones (- e)) =? 0)
  | _ => false
  end.

End Numbers.

Module BacktestPage.

(** [hasDefinedNumber] of [app/dashboard/backtest/page.tsx]. *)
Definition hasDefinedNumber (value : JsValue) : bool :=
  negb (is_nullish value).

End BacktestPage.

Module Wizard.
Import NewStrategy.

(** The strategy types a user can end up with. *)
Definition known_type (t : string) : Prop := is_Some (find_strategy t).

(** What holds of the selection and of the slider-bound parameters in every
    state of the page: a selected type is one of [strategyTypes]; past step 1
    a type is selected; and each parameter is within the range of its
    slider. *)
Definition well_formed (s : State) : Prop :=
  (forall t, selectedType s = Some t -> known_type t)
  /\ (2 <= step s -> exists t, selectedType s = Some t)
  /\ 3 <= fast_period (params s) <= 50
  /\ 10 <= slow_period (params s) <= 200
  /\ 1 <= sentiment_lookback (params s) <= 14
  /\ 0 <= stop_loss (params s) <= 30
  /\ 0 <= take_profit (params s) <= 50.

(** A session that switches from the EMA type to the SMA type. *)
Definition switching_session : list Event :=
  [ ClickType "ema_crossover"; ClickType "sma_crossover"; ClickNext;
    PanelExited; SlideStopLoss 4; ClickNext; PanelExited;
    TypeName "plain"; ClickSubmit ].

(** The SMA type is set up; while the panel of step 2 is leaving for
    step 1, the search parameters name the EMA type, and then the slider of
    the stop loss of that panel is moved. *)
Definition overtaking_session : list Event :=
  [ ClickType "sma_crossover"; ClickNext; PanelExited; ClickBack;
    SearchParams (Some "ema_crossover"); SlideStopLoss 4; PanelExited;
    ClickNext; PanelExited; ClickNext; PanelExited;
    TypeName "late"; ClickSubmit ].

(** The events that come from the controls of a step panel. *)
Definition panel_event (e : Event) : bool :=
  match e with
  | SearchParams _ | ClickNext | ClickBack | ClickSubmit | PanelExited => false
  | _ => true
  end.

(** The mounted panel is leaving: it is not the panel of the current step. *)
Definition leaving (pg : Page) : bool :=
  negb (step (shown pg) =? step (current pg)).

(** A session in which no control of a leaving panel is used. *)
Fixpoint patient (pg : Page) (events : list Event) : bool :=
  match events with
  | [] => true
  | e :: rest =>
      negb (panel_event e && leaving pg) && patient (handle pg e).1 rest
  end.

End Wizard.

(* ================================================================== *)
(** * Facts about [lib/api.ts]                                         *)
(* ================================================================== *)

(** Membership in an explicit list, by trying its elements in turn. *)
Ltac set_in :=
  rewrite !elem_of_cons; repeat (first [left; reflexivity | right]).

Section ApiFacts.
Context (B : Builtins).

Lemma status_switch_cases (s : string) :
  (s ∈ BacktestStatusValues /\ status_switch s = s)
  \/ ((s ∉ BacktestStatusValues) /\ status_switch s = "pending").
Proof.
  unfold status_switch, BacktestStatusValues.
  destruct (String.eqb_spec s "pending") as [->|?]; [by left; split; [set_in|]|].
  destruct (String.eqb_spec s "running") as [->|?]; [by left; split; [set_in|]|].
  destruct (String.eqb_spec s "completed") as [->|?]; [by left; split; [set_in|]|].
  destruct (String.eqb_spec s "failed") as [->|?]; [by left; split; [set_in|]|].
  destruct (String.eqb_spec s "cancelled") as [->|?]; [by left; split; [set_in|]|].
  right. split; [rewrite !elem_of_cons, elem_of_nil; tauto | reflexivity].
Qed.

Lemma status_switch_value (s : string) : status_switch s ∈ BacktestStatusValues.
Proof.
  destruct (status_switch_cases s) as [[? ->]|[_ ->]]; [done|].
  unfold BacktestStatusValues. set_in.
Qed.

Lemma toLowerCase_status_word (w : string) :
  w ∈ BacktestStatusValues -> toLowerCase w = w.
Proof.
  unfold BacktestStatusValues. rewrite !elem_of_cons, elem_of_nil.
  intros [->|[->|[->|[->|[->|[]]]]]]; reflexivity.
Qed.

(** Normalising is idempotent: a normalised status is kept. *)
Lemma normalizeStatusString_idempotent (s : string) :
  normalizeStatusString (normalizeStatusString s) = normalizeStatusString s.
Proof.
  unfold normalizeStatusString.
  rewrite (toLowerCase_status_word _ (status_switch_value _)).
  destruct (status_switch_cases (status_switch (toLowerCase s)))
    as [[_ H]|[Hn _]]; [exact H | destruct (Hn (status_switch_value _))].
Qed.

(** The string coercion of a primitive never throws. *)
Lemma ToString_primitive (v : JsValue) :
  primitive v = true -> is_Some (ToString B v).
Proof. destruct v; try done; by eexists. Qed.

Lemma toNumber_cases (v r : JsValue) :
  toNumber B v = Some r ->
  r = JsUndefined \/ exists n, r = JsNumber n /\ Number_isFinite n = true.
Proof.
  unfold toNumber. destruct (is_nullish v); [intros [= <-]; by left|].
  destruct (match v with JsNumber x => Some x | _ => ToNumber B v end) as [n|];
    [|done].
  destruct (Number_isFinite n) eqn:Hn; intros [= <-]; eauto.
Qed.

Lemma Math_trunc_finite (n : spec_float) :
  Number_isFinite n = true -> Number_isFinite (Math_trunc n) = true.
Proof.
  destruct n as [| | |s m e]; try done. intros _. simpl.
  destruct (0 <=? e); [done|].
  destruct (Z.shiftr _ _); [done| |done].
  unfold signed_integer. by destruct (_ <? _).
Qed.

Lemma toInteger_cases (v r : JsValue) :
  toInteger B v = Some r ->
  r = JsUndefined \/ exists n, r = JsNumber n /\ Number_isFinite n = true.
Proof.
  unfold toInteger. destruct (toNumber B v) as [w|] eqn:Hw; [|done].
  destruct (toNumber_cases _ _ Hw) as [->|(n & -> & Hn)].
  - intros [= <-]; by left.
  - intros [= <-]. right. eexists. split; [done|]. by apply Math_trunc_finite.
Qed.

Lemma toNumber_primitive (v : JsValue) :
  primitive v = true -> is_Some (toNumber B v).
Proof. destruct v; try done; by eexists. Qed.

Lemma toInteger_primitive (v : JsValue) :
  primitive v = true -> is_Some (toInteger B v).
Proof.
  intros Hv. unfold toInteger.
  destruct (toNumber_primitive v Hv) as [w ->]. destruct w; by eexists.
Qed.

(** After a loop, a key of the loop holds its converted value and every
    other key is as before. *)
Lemma assign_metrics_lookup conv payload keys (m m' : gmap string JsValue) key :
  assign_metrics conv payload keys m = Some m' ->
  m' !! key = if decide (key ∈ keys) then conv (pickTopLevelOrMetric payload key)
              else m !! key.
Proof.
  revert m. induction keys as [|k rest IH]; intros m; cbn [assign_metrics].
  - intros [= <-]. case_decide as Hin; [by apply elem_of_nil in Hin | done].
  - destruct (conv (pickTopLevelOrMetric payload k)) as [v|] eqn:Hv; [|done].
    intros H. rewrite (IH _ H).
    destruct (decide (key = k)) as [->|Hne].
    + rewrite Hv, lookup_insert_eq.
      repeat case_decide; try done; exfalso; rewrite elem_of_cons in *; tauto.
    + rewrite lookup_insert_ne by done.
      repeat case_decide; try done; exfalso; rewrite elem_of_cons in *; tauto.
Qed.

(** A loop completes exactly when no conversion throws. *)
Lemma assign_metrics_is_Some conv payload keys (m : gmap string JsValue) :
  is_Some (assign_metrics conv payload keys m)
  <-> Forall (fun key => is_Some (conv (pickTopLevelOrMetric payload key))) keys.
Proof.
  revert m. induction keys as [|k rest IH]; intros m; cbn [assign_metrics].
  - split; [constructor | by eexists].
  - rewrite Forall_cons.
    destruct (conv (pickTopLevelOrMetric payload k)) as [v|].
    + rewrite IH. split; [split; [by eexists | done] | tauto].
    + split; [by intros [? ?] | by intros [[? ?] _]].
Qed.

(** What a metric key of the normalised result holds. *)
Lemma normalized_lookup payload normalized key :
  normalizeBacktestResult B payload = Some normalized ->
  key ∈ (NUMERIC_METRIC_KEYS ++ INTEGER_METRIC_KEYS)%list ->
  exists v,
    normalized !! key = Some v
    /\ metric_conversion B key (pickTopLevelOrMetric payload key) = Some v.
Proof.
  unfold normalizeBacktestResult, metric_conversion.
  destruct (normalizeBacktestStatus B (get payload "status")) as [st|]; [|done].
  destruct (assign_metrics (toNumber B) payload NUMERIC_METRIC_KEYS _)
    as [m1|] eqn:H1; [|done].
  intros H2 Hkey.
  rewrite (assign_metrics_lookup _ _ _ _ _ key H2).
  pose proof (proj1 (assign_metrics_is_Some _ _ _ _) (mk_is_Some _ _ H2)) as D2.
  pose proof (proj1 (assign_metrics_is_Some _ _ _ _) (mk_is_Some _ _ H1)) as D1.
  rewrite Forall_forall in D1, D2.
  destruct (decide (key ∈ INTEGER_METRIC_KEYS)) as [Hint|Hint].
  - destruct (D2 _ Hint) as [v Hv]. exists v. by rewrite Hv.
  - apply elem_of_app in Hkey as [Hnum|?]; [|done].
    rewrite (assign_metrics_lookup _ _ _ _ _ key H1), decide_True by done.
    destruct (D1 _ Hnum) as [v Hv]. exists v. by rewrite Hv.
Qed.

(** [normalizeBacktestResult] returns a result whenever the status and
    the chosen metric values are primitives (strings, numbers, booleans,
    [null], [undefined]): no coercion can throw then. *)
Lemma normalizeBacktestResult_returns payload :
  primitive (get payload "status") = true ->
  (forall key, primitive (pickTopLevelOrMetric payload key) = true) ->
  is_Some (normalizeBacktestResult B payload).
Proof.
  intros Hst Hkeys. unfold normalizeBacktestResult, normalizeBacktestStatus.
  assert (is_Some (ToString B
            (nullish_coalesce (get payload "status") (JsString EmptyString))))
    as [s ->].
  { apply ToString_primitive. unfold nullish_coalesce.
    by destruct (is_nullish _). }
  destruct (assign_metrics (toNumber B) payload NUMERIC_METRIC_KEYS _)
    as [m1|] eqn:H1.
  - apply assign_metrics_is_Some, Forall_forall.
    intros key _. apply toInteger_primitive, Hkeys.
  - assert (is_Some (@None (gmap string JsValue))) as [? ?]; [|done].
    rewrite <- H1. apply assign_metrics_is_Some, Forall_forall.
    intros key _. apply toNumber_primitive, Hkeys.
Qed.

(** Claim C8, as amended. Whenever the string coercion of [status ?? ''] does
    not throw, [normalizeBacktestStatus] returns one of the five statuses:
    the word that the lowercased string form equals, whatever the case of
    its letters, and ["pending"] when it equals none. In particular [null],
    [undefined], booleans and objects without an own [toString] property
    give ["pending"]. (An array counts by its comma-joined elements.) *)
Theorem normalizeBacktestStatus_by_string_form (v : JsValue) (s : string) :
  ToString B (nullish_coalesce v (JsString EmptyString)) = Some s ->
  exists r,
    normalizeBacktestStatus B v = Some r
    /\ r ∈ BacktestStatusValues
    /\ (forall w, w ∈ BacktestStatusValues ->
          toLowerCase s = toLowerCase w -> r = w)
    /\ ((forall w, w ∈ BacktestStatusValues ->
           toLowerCase s <> toLowerCase w) -> r = "pending")
    /\ (is_nullish v = true \/ (exists b, v = JsBoolean b)
        \/ (exists fields, v = JsObject fields) -> r = "pending").
Proof.
  intros Hs. unfold normalizeBacktestStatus. rewrite Hs.
  eexists. split; [reflexivity|]. unfold normalizeStatusString.
  split; [apply status_switch_value|].
  split; [|split].
  - destruct (status_switch_cases (toLowerCase s)) as [[Hin ->]|[Hnin ->]].
    + intros w Hw ->. by apply toLowerCase_status_word.
    + intros w Hw Heq. exfalso. apply Hnin.
      by rewrite Heq, (toLowerCase_status_word _ Hw).
  - destruct (status_switch_cases (toLowerCase s)) as [[Hin ->]|[Hnin ->]].
    + intros Hne. exfalso. apply (Hne _ Hin).
      by rewrite (toLowerCase_status_word _ Hin).
    + done.
  - intros [Hn|[[b ->]|[fields ->]]].
    + destruct v; try done; injection Hs as <-; reflexivity.
    + destruct b; injection Hs as <-; reflexivity.
    + simpl in Hs. destruct (fields !! "toString"); [done|].
      injection Hs as <-. reflexivity.
Qed.

(** Claim C5. Each metric field of a normalised result, the three integer
    ones included, is [undefined] or a finite number, whatever the payload
    held: no [NaN] and no infinity gets through. *)
Theorem normalized_metric_finite_or_undefined payload normalized key :
  normalizeBacktestResult B payload = Some normalized ->
  key ∈ (NUMERIC_METRIC_KEYS ++ INTEGER_METRIC_KEYS)%list ->
  get normalized key = JsUndefined
  \/ exists n, get normalized key = JsNumber n /\ Number_isFinite n = true.
Proof.
  intros H Hkey.
  destruct (normalized_lookup _ _ _ H Hkey) as (v & Hv & Hconv).
  unfold get. rewrite Hv. simpl. unfold metric_conversion in Hconv.
  destruct (decide (key ∈ INTEGER_METRIC_KEYS)).
  - by apply toInteger_cases in Hconv.
  - by apply toNumber_cases in Hconv.
Qed.

(** Claim C9. For every metric key the normalised value is the conversion of
    the top-level field when that is neither [null] nor [undefined];
    otherwise of the field under [payload.metrics] when that is neither;
    otherwise it is [undefined]. *)
Theorem normalized_metric_precedence payload normalized key :
  normalizeBacktestResult B payload = Some normalized ->
  key ∈ (NUMERIC_METRIC_KEYS ++ INTEGER_METRIC_KEYS)%list ->
  let topLevel := get payload key in
  let nestedMetric := optional_member (get payload "metrics") key in
  (is_nullish topLevel = false ->
     metric_conversion B key topLevel = Some (get normalized key))
  /\ (is_nullish topLevel = true -> is_nullish nestedMetric = false ->
      metric_conversion B key nestedMetric = Some (get normalized key))
  /\ (is_nullish topLevel = true -> is_nullish nestedMetric = true ->
      get normalized key = JsUndefined).
Proof.
  intros H Hkey topLevel nestedMetric.
  destruct (normalized_lookup _ _ _ H Hkey) as (v & Hv & Hconv).
  replace (get normalized key) with v by (unfold get; by rewrite Hv).
  unfold pickTopLevelOrMetric in Hconv.
  fold topLevel nestedMetric in Hconv.
  repeat split.
  - intros Ht. by rewrite Ht in Hconv.
  - intros Ht Hn. by rewrite Ht, Hn in Hconv.
  - intros Ht Hn. rewrite Ht, Hn in Hconv. simpl in Hconv.
    unfold metric_conversion in Hconv.
    destruct (decide _); by injection Hconv.
Qed.
End ApiFacts.

(* ================================================================== *)
(** * Facts about [hooks/use-backtests.ts]                             *)
(* ================================================================== *)

Section HookFacts.
Import Hooks.

(** On a string or [undefined], [normalizeStringOrUndefined] is what
    [normalizeBacktestStatus] returns, with any built-ins. *)
Lemma normalizeStringOrUndefined_correct (B : Builtins) (status : option string) :
  normalizeBacktestStatus B (optional_status status)
  = Some (normalizeStringOrUndefined (optional_status status)).
Proof. by destruct status. Qed.

(** [a || b] of two operands that are strings or [undefined] is again one
    of them, so [finalStatus] is the value [normalizeBacktestStatus]
    returns for it. *)
Lemma finalStatus_correct (B : Builtins) sd rd :
  normalizeBacktestStatus B
    (js_or (optional_status (sd_status <$> sd))
           (optional_status (rd_status <$> rd)))
  = Some (finalStatus sd rd).
Proof.
  unfold finalStatus, js_or.
  destruct sd as [[s ? ?]|], rd as [[r]|]; simpl;
    try destruct (negb (s =? EmptyString)%string); reflexivity.
Qed.

Lemma isTerminal_spec (s : string) :
  isTerminal s = true <-> s = "completed" \/ s = "failed" \/ s = "cancelled".
Proof.
  unfold isTerminal.
  destruct (String.eqb_spec s "completed"), (String.eqb_spec s "failed"),
    (String.eqb_spec s "cancelled"); simpl; intuition congruence.
Qed.

(** The status payload decides whenever it carries a non-empty status. *)
Lemma finalStatus_status_payload d rd :
  sd_status d <> EmptyString ->
  finalStatus (Some d) rd = normalizeStatusString (sd_status d).
Proof.
  intros Hne. unfold finalStatus, js_or. simpl.
  by destruct (String.eqb_spec (sd_status d) EmptyString).
Qed.

(** Claim C3. With [status] the normalised status of the polled data, the
    refetch interval is 1000 ms exactly when [status] is not terminal and
    [false] exactly when it is completed, failed or cancelled. The data is
    all the callback reads: nothing but a terminal status stops the
    polling. *)
Theorem refetchInterval_spec (B : Builtins) (data : option StatusData) :
  exists status,
    normalizeBacktestStatus B (optional_status (sd_status <$> data)) = Some status
    /\ (refetchInterval data = RefetchEvery 1000 <-> isTerminal status = false)
    /\ (refetchInterval data = NoRefetch
        <-> status = "completed" \/ status = "failed" \/ status = "cancelled").
Proof.
  eexists. split; [apply normalizeStringOrUndefined_correct|].
  unfold refetchInterval. rewrite <- isTerminal_spec.
  set (status := normalizeStringOrUndefined _).
  split; destruct (isTerminal status); split; congruence.
Qed.

(** Claim C10. Without a progress value in the status payload (no payload
    yet, or a progress that is [null] or [undefined]) the hook reports 100
    when the derived status is terminal and 0 otherwise; a progress value
    that is there, a 0 included, is reported as it is. *)
Theorem reported_progress (isPending : bool) (s : HookState) sd rd :
  let r := hook_result isPending s sd rd in
  let fallback :=
    JsNumber (if isTerminal (finalStatus sd rd) then of_Z 100 else of_Z 0) in
  status r = finalStatus sd rd
  /\ progress r
     = match sd with
       | None => fallback
       | Some d =>
           match sd_progress d with
           | JsUndefined | JsNull => fallback
           | value => value
           end
       end.
Proof.
  intros r fallback. split; [reflexivity|].
  subst r fallback. unfold hook_result. cbn [progress].
  destruct sd as [d|]; [|reflexivity].
  unfold nullish_coalesce. by destruct (sd_progress d).
Qed.

Lemma truthy_id_Some (id : Z) : id <> 0 -> truthy_id (Some id) = Some id.
Proof. intros H. unfold truthy_id. by destruct (Z.eqb_spec id 0). Qed.

(** ** One render in each phase *)





Lemma render_armed_nonterminal (id : Z) (s : HookState) sd rd :
  armed id s -> isTerminal (finalStatus sd rd) = false ->
  (render s sd rd).2 = [] /\ armed id (render s sd rd).1.
Proof.
  intros (Hid & Href & Hd) Hnt. unfold render. rewrite Hnt, Hid, Href.
  case_decide as Hdeps; simpl; [by repeat split|].
  unfold effect_body. destruct (truthy_id (Some id)); simpl.
  - split; [done|]. repeat split. simpl. congruence.
  - split; [done|]. repeat split. simpl. congruence.
Qed.


Lemma render_handled (id : Z) (t : string) (s : HookState) sd rd :
  id <> 0 -> handled id t s ->
  (isTerminal (finalStatus sd rd) = true -> finalStatus sd rd = t) ->
  (render s sd rd).2 = [] /\ handled id t (render s sd rd).1.
Proof.
  intros Hid0 (Hid & Href) Hsame. unfold render. rewrite Hid, Href.
  case_decide as Hdeps; simpl; [by repeat split|].
  unfold effect_body. rewrite truthy_id_Some by done.
  destruct (isTerminal (finalStatus sd rd)) eqn:Ht; simpl.
  - rewrite (Hsame eq_refl). rewrite decide_True by done. by repeat split.
  - by repeat split.
Qed.

(** ** Runs *)

Lemma run_cons (s : HookState) (st : Step) (rest : list Step) :
  run s (st :: rest)
  = ((run (step s st).1 rest).1, ((step s st).2 ++ (run (step s st).1 rest).2)%list).
Proof.
  cbn [run]. destruct (step s st) as [s1 e1]. simpl.
  by destruct (run s1 rest) as [s2 e2].
Qed.


Lemma run_polls_cons (s : HookState) sd rd rest :
  run s (polls ((sd, rd) :: rest))
  = ((run (render s sd rd).1 (polls rest)).1,
     ((render s sd rd).2 ++ (run (render s sd rd).1 (polls rest)).2)%list).
Proof. unfold polls. by rewrite fmap_cons, run_cons. Qed.

Lemma run_resolved_cons (s : HookState) id sd rd rest :
  run s ((RunBacktestResolved id, sd, rd) :: polls rest)
  = run (act s (RunBacktestResolved id)) (polls ((sd, rd) :: rest)).
Proof. by rewrite run_cons, run_polls_cons. Qed.

Lemma reported_polls_cons (s : HookState) sd rd rest :
  reported s (polls ((sd, rd) :: rest))
  = (backtestId (render s sd rd).1, finalStatus sd rd)
    :: reported (render s sd rd).1 (polls rest).
Proof. reflexivity. Qed.


Lemma run_polls_armed_quiet (id : Z) (s : HookState) renders :
  armed id s ->
  Forall (fun r => isTerminal (finalStatus r.1 r.2) = false) renders ->
  (run s (polls renders)).2 = [] /\ armed id (run s (polls renders)).1.
Proof.
  intros Hs Hq. revert s Hs.
  induction Hq as [|[sd rd] rest Hnt _ IH]; intros s Hs; [done|].
  rewrite run_polls_cons. cbn [fst snd] in *.
  destruct (render_armed_nonterminal id s sd rd Hs Hnt) as [-> Hs1].
  by destruct (IH _ Hs1) as [-> ?].
Qed.

Lemma run_polls_handled (id : Z) (t : string) (s : HookState) renders :
  id <> 0 -> handled id t s ->
  Forall (fun r => isTerminal (finalStatus r.1 r.2) = true ->
                   finalStatus r.1 r.2 = t) renders ->
  (run s (polls renders)).2 = [] /\ handled id t (run s (polls renders)).1.
Proof.
  intros Hid Hs Hq. revert s Hs.
  induction Hq as [|[sd rd] rest Hsame _ IH]; intros s Hs; [done|].
  rewrite run_polls_cons. cbn [fst snd] in *.
  destruct (render_handled id t s sd rd Hid Hs Hsame) as [-> Hs1].
  by destruct (IH _ Hs1) as [-> ?].
Qed.


(** Without a terminal status nothing fires. *)
Lemma run_polls_armed_silent (id : Z) (s : HookState) renders :
  armed id s ->
  Forall (fun r => isTerminal (finalStatus r.1 r.2) = false) renders ->
  result_fetches (run s (polls renders)).2 = 0%nat.
Proof.
  intros Hs Hq. by destruct (run_polls_armed_quiet id s renders Hs Hq) as [-> _].
Qed.



(** Claim C2, as amended. While the status query holds a payload (with a
    status that is not the empty string, as every status that
    [api.backtests.status] has normalised is), the status the hook reports is
    the normalised status of that payload, whatever the result query holds,
    and it is reported for the one job id; so over renders in which the
    status payload is terminal, every status reported is terminal. While
    the status query has no data, the status reported is the normalised
    status of the result payload, and pending when there is none either. *)
Theorem status_payload_decides_reported_status (s : HookState) renders :
  Forall (fun r => exists d, r.1 = Some d /\ sd_status d <> EmptyString)
         renders ->
  Forall2 (fun r x =>
             x.1 = backtestId s
             /\ exists d, r.1 = Some d
                  /\ x.2 = normalizeStatusString (sd_status d))
          renders (reported s (polls renders))
  /\ (Forall (fun r => exists d,
                r.1 = Some d
                /\ isTerminal (normalizeStatusString (sd_status d)) = true)
             renders ->
      Forall (fun x => x.1 = backtestId s /\ isTerminal x.2 = true)
             (reported s (polls renders)))
  /\ (forall isPending s' rd,
        status (hook_result isPending s' None rd)
        = match rd with
          | Some d => normalizeStatusString (rd_status d)
          | None => "pending"
          end).
Proof.
  intros H.
  assert (Forall2 (fun r x =>
                     x.1 = backtestId s
                     /\ exists d, r.1 = Some d
                          /\ x.2 = normalizeStatusString (sd_status d))
                  renders (reported s (polls renders))) as Hrep.
  { revert s. induction H as [|[sd rd] rest (d & Hd & Hne) _ IH]; intros s;
      [constructor|].
    simpl in Hd. subst sd. rewrite (reported_polls_cons s (Some d) rd rest).
    assert (backtestId (render s (Some d) rd).1 = backtestId s) as Heq.
    { unfold render. case_decide; [done|]. by destruct (effect_body _ _ _ _ _). }
    constructor.
    - cbn [fst snd]. split; [done|]. exists d. split; [done|].
      by apply finalStatus_status_payload.
    - specialize (IH (render s (Some d) rd).1). by rewrite Heq in IH. }
  split; [done|]. split.
  - intros Hterm.
    clear H. induction Hrep as [|r x rest xs (Hid & d & Hd & Hx) _ IH];
      [constructor|].
    apply Forall_cons in Hterm as [(d' & Hd' & Ht) Hterm].
    constructor; [|by apply IH].
    split; [done|]. rewrite Hx. congruence.
  - intros isPending s' [d|]; [|reflexivity].
    unfold hook_result, finalStatus, js_or. cbn [status fmap option_fmap option_map optional_status ToBoolean].
    reflexivity.
Qed.
End HookFacts.

(* ================================================================== *)
(** * Facts about [app/dashboard/strategies/new/page.tsx]              *)
(* ================================================================== *)

Section WizardFacts.
Import NewStrategy.

(** Every row of [defaultParams] has its fast period below its slow one
    and a position size of 50 or 100 percent. *)
Lemma defaultParams_sound (type : string) (typeDefaults : Params -> Params)
    (prev : Params) :
  defaultParams type = Some typeDefaults ->
  fast_period (typeDefaults prev) < slow_period (typeDefaults prev)
  /\ 10 <= position_size (typeDefaults prev) <= 100.
Proof.
  unfold defaultParams.
  repeat (match goal with
          | |- context [String.eqb ?a ?b] => destruct (String.eqb a b)
          end; [intros [= <-]; simpl; lia|]).
  done.
Qed.

Lemma select_type_invariant (type : string) (s : State) :
  invariant s -> invariant (select_type type s).
Proof.
  intros (Hstep & Hpos). unfold select_type.
  destruct (defaultParams type) as [f|] eqn:Hf; [|done].
  destruct (defaultParams_sound type f (params s) Hf) as [? ?].
  split; simpl in *; lia.
Qed.

Lemma slider_range (min max stp value : Z) :
  slider min max stp value = true -> min <= value <= max.
Proof. unfold slider. lia. Qed.

(** After an event the mounted panel has been rendered with the new state,
    or it is, exiting, what it was. *)
Lemma handle_shown (pg : Page) (e : Event) :
  shown (handle pg e).1 = current (handle pg e).1
  \/ shown (handle pg e).1 = shown pg.
Proof.
  unfold handle, rendered. cbn [fst current shown].
  destruct e; try (destruct (_ =? _); by auto). by left.
Qed.

(** The handlers keep the invariant, also the sliders of a panel that is
    exiting: they start from the [params] the panel was rendered with. *)
Lemma dispatch_invariant (pg : Page) (e : Event) :
  invariant (current pg) -> invariant (shown pg) -> enabled pg e = true ->
  invariant (dispatch pg e).1.
Proof.
  intros (Hstep & Hpos) (Hstep' & Hpos') He.
  destruct e; simpl in He |- *;
    try (apply andb_prop in He as [He ?]);
    try (apply andb_prop in He as [He ?]);
    try (split; simpl; lia).
  - unfold searchParams_effect. destruct type as [t|]; [|done].
    destruct (_ && _); [by apply select_type_invariant | done].
  - by apply select_type_invariant.
  - apply slider_range in H. split; simpl; lia.
  - unfold handleNext.
    destruct (_ && _); [done|]. destruct (_ && _); [done|].
    split; simpl; lia.
  - unfold handleSubmit. destruct (trim_is_empty _); [done|].
    by destruct (selectedType (current pg)).
Qed.

(** What the first state has and the handlers keep, given it of the
    component's state and of the state of the mounted panel, holds of both
    on every page of a session. *)
Lemma reachable_both (P : State -> Prop) :
  P initial ->
  (forall pg e, P (current pg) -> P (shown pg) -> enabled pg e = true ->
                P (dispatch pg e).1) ->
  forall pg, reachable pg -> P (current pg) /\ P (shown pg).
Proof.
  intros Hinit Hstep pg Hr. induction Hr as [|pg e _ [Hc Hs] He]; [done|].
  assert (P (current (handle pg e).1)) as Hc' by (by apply Hstep).
  split; [done|]. by destruct (handle_shown pg e) as [-> | ->].
Qed.

Lemma reachable_invariant (pg : Page) :
  reachable pg -> invariant (current pg) /\ invariant (shown pg).
Proof.
  apply (reachable_both invariant); [|apply dispatch_invariant].
  split; simpl; lia.
Qed.

Lemma run_reachable (pg : Page) (events : list Event) pg' effects :
  reachable pg -> run pg events = Some (pg', effects) -> reachable pg'.
Proof.
  revert pg effects.
  induction events as [|e rest IH]; intros pg effects Hpg; cbn [run].
  - by intros [= <- _].
  - destruct (enabled pg e) eqn:He; [|done].
    destruct (handle pg e) as [pg1 e1] eqn:Hh.
    destruct (run pg1 rest) as [[pg2 e2]|] eqn:Hr; [|done].
    intros [= <- _]. apply (IH pg1 e2); [|done].
    replace pg1 with (handle pg e).1 by (by rewrite Hh). by constructor.
Qed.

(** Every effect of a session is the effect of an enabled event on a
    reachable page. *)
Lemma run_effect (pg : Page) (events : list Event) pg' effects (x : Effect) :
  reachable pg -> run pg events = Some (pg', effects) -> x ∈ effects ->
  exists pg1 e,
    reachable pg1 /\ enabled pg1 e = true /\ x ∈ (dispatch pg1 e).2.
Proof.
  revert pg effects.
  induction events as [|e rest IH]; intros pg effects Hpg; cbn [run].
  - intros [= _ <-] Hx. by apply elem_of_nil in Hx.
  - destruct (enabled pg e) eqn:He; [|done].
    destruct (handle pg e) as [pg1 e1] eqn:Hh.
    destruct (run pg1 rest) as [[pg2 e2]|] eqn:Hr; [|done].
    intros [= <- <-] Hx. apply elem_of_app in Hx as [Hx|Hx].
    + exists pg, e. replace e1 with (handle pg e).2 in Hx by (by rewrite Hh).
      auto.
    + apply (IH pg1 e2); [|done..].
      replace pg1 with (handle pg e).1 by (by rewrite Hh). by constructor.
Qed.

(** Only [handleSubmit] sends a request, and it sends the parameters of the
    component's state, the position size divided by 100. *)
Lemma create_request (pg : Page) (e : Event) (input : CreateStrategyInput) :
  enabled pg e = true -> CreateStrategy input ∈ (dispatch pg e).2 ->
  step (current pg) = 3
  /\ config_params (logic_config input) = params (current pg)
  /\ config_position_size (logic_config input)
     = div (of_Z (position_size (params (current pg)))) (of_Z 100).
Proof.
  intros He Hin.
  destruct e; simpl in Hin;
    try (by apply elem_of_nil in Hin).
  - unfold handleNext in Hin.
    repeat (destruct (_ && _) in Hin; simpl in Hin;
            [apply list_elem_of_singleton in Hin; discriminate|]).
    by apply elem_of_nil in Hin.
  - simpl in He. apply andb_prop in He as [He _].
    unfold handleSubmit in Hin. destruct (trim_is_empty _).
    + apply list_elem_of_singleton in Hin; discriminate.
    + destruct (selectedType (current pg)); simpl in Hin;
        [|by apply elem_of_nil in Hin].
      apply list_elem_of_singleton in Hin. injection Hin as ->. simpl.
      repeat split. lia.
Qed.

(** In binary64, every whole percentage from 10 to 100 divided by 100 lies
    above 0 and at most at 1 (checked for each of the 91 values). *)
Lemma fraction_in_unit_interval (pct : Z) :
  10 <= pct <= 100 ->
  SFltb (of_Z 0) (div (of_Z pct) (of_Z 100)) = true
  /\ SFleb (div (of_Z pct) (of_Z 100)) (of_Z 1) = true.
Proof.
  intros Hpct.
  assert (forallb (fun n : nat =>
            SFltb (of_Z 0) (div (of_Z (Z.of_nat n)) (of_Z 100))
            && SFleb (div (of_Z (Z.of_nat n)) (of_Z 100)) (of_Z 1))
          (seq 10 91) = true) as Hall by (vm_compute; reflexivity).
  rewrite forallb_forall in Hall.
  specialize (Hall (Z.to_nat pct)). rewrite Z2Nat.id in Hall by lia.
  apply andb_prop. apply Hall. apply in_seq. lia.
Qed.

(** On step 2, [handleNext] answers a fast period at or above the slow one
    with the error toast and leaves the state, the periods included, as it
    was; with the fast period below the slow one it goes on to step 3. *)
Lemma handleNext_checks_periods (s : State) :
  step s = 2 ->
  handleNext s
  = if fast_period (params s) >=? slow_period (params s)
    then (s, [ToastError FastMustBeBelowSlow])
    else (with_step 3 s, []).
Proof.
  intros H2. unfold handleNext. rewrite H2. cbn [Z.eqb Pos.eqb andb].
  by destruct (_ >=? _).
Qed.

(** Claim C4, not kept by the page. [handleNext] checks the periods when
    step 2 is left, and [handleSubmit] sends [params] as they are then. In
    the session [hasty_session] the check is passed with the periods 10 and
    30, no error toast is shown, and the one create request carries the fast
    period 50 against the slow period 30: the slider of the panel of step 2
    was moved while that panel was leaving. The same periods are refused by
    [handleNext] on step 2. *)
Theorem create_request_after_period_check :
  exists pg input,
    run opened hasty_session = Some (pg, [CreateStrategy input])
    /\ strategy_type input = "sma_crossover"
    /\ fast_period (config_params (logic_config input)) = 50
    /\ slow_period (config_params (logic_config input)) = 30
    /\ handleNext (with_step 2 (current pg))
       = (with_step 2 (current pg), [ToastError FastMustBeBelowSlow]).
Proof.
  eexists. eexists. split; [vm_compute; reflexivity|].
  repeat split.
Qed.

(** Claim C7. In every session of the page, the position size of each
    create request is a percentage between 10 and 100 divided by 100, a
    number above 0 and at most 1. *)
Theorem position_size_in_unit_interval
    (events : list Event) (pg : Page) (effects : list Effect)
    (input : CreateStrategyInput) :
  run opened events = Some (pg, effects) ->
  CreateStrategy input ∈ effects ->
  exists percent,
    10 <= percent <= 100
    /\ config_position_size (logic_config input)
       = div (of_Z percent) (of_Z 100)
    /\ SFltb (of_Z 0) (config_position_size (logic_config input)) = true
    /\ SFleb (config_position_size (logic_config input)) (of_Z 1) = true.
Proof.
  intros Hrun Hin.
  destruct (run_effect _ _ _ _ _ reachable_opened Hrun Hin)
    as (pg1 & e & Hpg1 & He & Hx).
  destruct (create_request _ _ _ He Hx) as (_ & _ & ->).
  destruct (reachable_invariant _ Hpg1) as [(_ & Hpos) _].
  exists (position_size (params (current pg1))). split; [done|]. split; [done|].
  by apply fraction_in_unit_interval.
Qed.
End WizardFacts.

(* ================================================================== *)
(** * Worked examples                                                  *)
(* ================================================================== *)

(** A cancelled job gets the four cache operations and no toast. *)
Lemma terminal_handler_cancelled (id : Z) (message : option (option string)) :
  Hooks.terminal_handler id "cancelled" message
  = [ Hooks.InvalidateQueries Hooks.ListsKey;
      Hooks.RefetchActiveQueries Hooks.ListsKey;
      Hooks.InvalidateQueries (Hooks.DetailKey id);
      Hooks.RefetchResult ].
Proof. reflexivity. Qed.

(** On step 2 of the wizard, a fast period of 50 against a slow period of 50
    is refused and nothing changes. *)
Lemma handleNext_refuses_equal_periods :
  let s :=
    NewStrategy.with_step 2
      (NewStrategy.with_params
         (NewStrategy.with_fast_period 50
            (NewStrategy.params
               (NewStrategy.select_type "sentiment_sma_conservative"
                  NewStrategy.initial)))
         (NewStrategy.select_type "sentiment_sma_conservative"
            NewStrategy.initial)) in
  NewStrategy.handleNext s
  = (s, [NewStrategy.ToastError NewStrategy.FastMustBeBelowSlow]).
Proof. vm_compute. reflexivity. Qed.

(** The string ["Completed"] is its own string form and is recognised. *)
Lemma normalizeBacktestStatus_by_string_form_witness :
  exists r,
    normalizeBacktestStatus no_numerals (JsString "Completed") = Some r
    /\ r ∈ BacktestStatusValues
    /\ (forall w, w ∈ BacktestStatusValues ->
          toLowerCase "Completed" = toLowerCase w -> r = w)
    /\ ((forall w, w ∈ BacktestStatusValues ->
           toLowerCase "Completed" <> toLowerCase w) -> r = "pending")
    /\ (is_nullish (JsString "Completed") = true
        \/ (exists b, JsString "Completed" = JsBoolean b)
        \/ (exists fields, JsString "Completed" = JsObject fields) -> r = "pending").
Proof.
  apply (normalizeBacktestStatus_by_string_form no_numerals
           (JsString "Completed") "Completed").
  reflexivity.
Defined.

(** Against claim C8 as stated: an array is no string, yet the one-element
    array [["COMPLETED"]] is mapped to ["completed"], not to ["pending"]; and an
    object with an own [toString] property makes the call throw, so the
    function does not return on every input. *)
Lemma normalizeBacktestStatus_array_and_shadowed_toString :
  (forall B : Builtins,
     normalizeBacktestStatus B (JsArray [JsString "COMPLETED"]) = Some "completed")
  /\ (forall B : Builtins,
        normalizeBacktestStatus B (JsObject (<["toString" := JsNull]> ∅)) = None).
Proof. split; intros B; reflexivity. Qed.

(** The infinite profit factor of a run without trades is dropped. *)
Lemma normalized_metric_finite_or_undefined_witness :
  exists normalized,
    normalizeBacktestResult no_numerals no_trades_payload = Some normalized
    /\ (get normalized "profit_factor" = JsUndefined
        \/ exists n, get normalized "profit_factor" = JsNumber n
                     /\ Number_isFinite n = true).
Proof.
  eexists. split; [reflexivity|].
  apply (normalized_metric_finite_or_undefined no_numerals no_trades_payload).
  - reflexivity.
  - apply (bool_decide_unpack _). vm_compute. reflexivity.
Defined.

(** A [null] at the top level gives way to the value under [metrics]. *)
Lemma normalized_metric_precedence_witness :
  exists normalized,
    normalizeBacktestResult no_numerals no_trades_payload = Some normalized
    /\ metric_conversion no_numerals "sharpe_ratio"
         (JsNumber (div (of_Z 3) (of_Z 2)))
       = Some (get normalized "sharpe_ratio").
Proof.
  eexists. split; [reflexivity|].
  assert ("sharpe_ratio" ∈ (NUMERIC_METRIC_KEYS ++ INTEGER_METRIC_KEYS)%list)
    as Hkey by (apply (bool_decide_unpack _); vm_compute; reflexivity).
  apply (normalized_metric_precedence no_numerals no_trades_payload _
           "sharpe_ratio" eq_refl Hkey); reflexivity.
Defined.




(** Against claim C2 as stated: for job 7 the hook reports completed, taken
    from the result payload while the status query has no data, and then
    running, taken from the first status payload. *)
Lemma reported_status_can_leave_terminal :
  Hooks.reported Hooks.initial Hooks.overtaken_session
  = [ (None, "pending"); (Some 7, "pending");
      (Some 7, "completed"); (Some 7, "running") ]
  /\ Hooks.isTerminal "completed" = true
  /\ Hooks.isTerminal "running" = false.
Proof. repeat split. Qed.

(** Once the status payload of job 7 says completed, so does the hook. *)
Lemma status_payload_decides_reported_status_witness :
  let s := (Hooks.run Hooks.initial Hooks.overtaken_session).1 in
  let renders :=
    [ (Some Hooks.completed_data, Some Hooks.completed_result);
      (Some Hooks.completed_data, None) ] in
  Hooks.reported s (Hooks.polls renders)
  = [ (Some 7, "completed"); (Some 7, "completed") ]
  /\ Forall2 (fun r x =>
                x.1 = Hooks.backtestId s
                /\ exists d, r.1 = Some d
                     /\ x.2 = normalizeStatusString (Hooks.sd_status d))
             renders (Hooks.reported s (Hooks.polls renders))
  /\ (Forall (fun r => exists d,
                r.1 = Some d
                /\ Hooks.isTerminal
                     (normalizeStatusString (Hooks.sd_status d)) = true)
             renders ->
      Forall (fun x => x.1 = Hooks.backtestId s /\ Hooks.isTerminal x.2 = true)
             (Hooks.reported s (Hooks.polls renders)))
  /\ (forall isPending s' rd,
        Hooks.status (Hooks.hook_result isPending s' None rd)
        = match rd with
          | Some d => normalizeStatusString (Hooks.rd_status d)
          | None => "pending"
          end).
Proof.
  intros s renders. split; [reflexivity|].
  apply (status_payload_decides_reported_status s renders).
  repeat (apply Forall_cons_2; [eexists; split; [reflexivity|discriminate]|]).
  apply Forall_nil_2.
Defined.


(** The sample session: 30 percent are sent as the binary64 value of 0.3. *)
Lemma position_size_in_unit_interval_witness :
  exists pg effects input,
    NewStrategy.run NewStrategy.opened NewStrategy.sample_session
    = Some (pg, effects)
    /\ NewStrategy.CreateStrategy input ∈ effects
    /\ NewStrategy.config_position_size (NewStrategy.logic_config input)
       = div (of_Z 30) (of_Z 100)
    /\ exists percent,
         10 <= percent <= 100
         /\ NewStrategy.config_position_size (NewStrategy.logic_config input)
            = div (of_Z percent) (of_Z 100)
         /\ SFltb (of_Z 0)
              (NewStrategy.config_position_size (NewStrategy.logic_config input))
            = true
         /\ SFleb
              (NewStrategy.config_position_size (NewStrategy.logic_config input))
              (of_Z 1)
            = true.
Proof.
  eexists. eexists. eexists.
  split; [vm_compute; reflexivity|].
  split; [apply list_elem_of_further, list_elem_of_here|].
  split; [vm_compute; reflexivity|].
  eapply (position_size_in_unit_interval NewStrategy.sample_session).
  - vm_compute. reflexivity.
  - apply list_elem_of_further, list_elem_of_here.
Defined.

(* ================================================================== *)
(** * More facts: the API layer                                        *)
(* ================================================================== *)

Section MoreApiFacts.
Context (B : Builtins).
Import ApiClient Numbers.

(** A status that [normalizeBacktestStatus] returned is a status word, and
    normalising the word gives the word. *)
Lemma normalized_status_fixed (v : JsValue) (r : string) :
  normalizeBacktestStatus B v = Some r ->
  r ∈ BacktestStatusValues /\ normalizeStatusString r = r.
Proof.
  unfold normalizeBacktestStatus.
  destruct (ToString B _) as [s|]; [|done]. intros [= <-].
  split; [apply status_switch_value | apply normalizeStatusString_idempotent].
Qed.

(** [normalizeBacktestStatus] is idempotent: applied to a status it
    returned it returns that status again, one of the five words. The API
    layer and the hooks both normalise; the second pass changes nothing. *)
Theorem normalizeBacktestStatus_idempotent (v : JsValue) (r : string) :
  normalizeBacktestStatus B v = Some r ->
  normalizeBacktestStatus B (JsString r) = Some r
  /\ r ∈ BacktestStatusValues.
Proof.
  intros Hr. destruct (normalized_status_fixed v r Hr) as [Hin Hfix].
  split; [|done]. unfold normalizeBacktestStatus. simpl. by rewrite Hfix.
Qed.

(** A loop leaves the keys it does not run over alone. *)
Lemma assign_metrics_keeps conv payload keys (m m' : gmap string JsValue) key :
  assign_metrics conv payload keys m = Some m' -> key ∉ keys ->
  m' !! key = m !! key.
Proof.
  intros H Hk. rewrite (assign_metrics_lookup _ _ _ _ _ key H).
  by rewrite decide_False.
Qed.

(** [normalizeBacktestResult] touches the status and the thirteen metric
    keys only: the status of the result is the normalised status of the
    payload, one of the five words, and every other field of the payload
    ([id], [equity_curve], [metrics], ...) is in the result as it was,
    present or absent. *)
Theorem normalizeBacktestResult_frame payload normalized :
  normalizeBacktestResult B payload = Some normalized ->
  (exists st, normalizeBacktestStatus B (get payload "status") = Some st
              /\ normalized !! "status" = Some (JsString st)
              /\ st ∈ BacktestStatusValues)
  /\ (forall key, key <> "status" ->
        key ∉ (NUMERIC_METRIC_KEYS ++ INTEGER_METRIC_KEYS)%list ->
        normalized !! key = payload !! key).
Proof.
  unfold normalizeBacktestResult.
  destruct (normalizeBacktestStatus B (get payload "status")) as [st|] eqn:Hst;
    [|done].
  destruct (assign_metrics (toNumber B) payload NUMERIC_METRIC_KEYS _)
    as [m1|] eqn:H1; [|done].
  intros H2. split.
  - exists st. split; [done|]. split.
    + rewrite (assign_metrics_keeps _ _ _ _ _ "status" H2),
        (assign_metrics_keeps _ _ _ _ _ "status" H1), ?lookup_insert_eq; try done.
      all: apply (bool_decide_unpack _); vm_compute; reflexivity.
    + unfold normalizeBacktestStatus in Hst.
      destruct (ToString B _); [|done]. injection Hst as <-.
      apply status_switch_value.
  - intros key Hne Hnot. rewrite not_elem_of_app in Hnot. destruct Hnot.
    rewrite (assign_metrics_keeps _ _ _ _ _ key H2),
      (assign_metrics_keeps _ _ _ _ _ key H1), lookup_insert_ne; done.
Qed.

(** The bits of a number, as [digits2_pos] counts them. *)
Lemma digits2_log2 (p : positive) :
  Z.pos (digits2_pos p) = Z.log2 (Z.pos p) + 1.
Proof.
  assert (forall q, digits2_pos q = Pos.size q) as Hsize
    by (induction q; simpl; congruence).
  destruct p; simpl; rewrite ?Hsize; lia.
Qed.

Lemma iter_xO (q k : positive) :
  Z.pos (Pos.iter xO q k) = Z.shiftl (Z.pos q) (Z.pos k).
Proof.
  rewrite Z.shiftl_mul_pow2 by lia.
  revert q. induction k as [|k IH] using Pos.peano_ind; intros q.
  - simpl. lia.
  - rewrite Pos.iter_succ, Pos2Z.inj_xO, IH, Pos2Z.inj_succ, Z.pow_succ_r by lia.
    lia.
Qed.

Lemma digits2_iter_xO (q k : positive) :
  Z.pos (digits2_pos (Pos.iter xO q k)) = Z.pos (digits2_pos q) + Z.pos k.
Proof.
  induction k as [|k IH] using Pos.peano_ind.
  - simpl. lia.
  - rewrite Pos.iter_succ. simpl digits2_pos. lia.
Qed.

(** Below 53 bits, [signed_integer] appends [k] zeros to [q] and lowers the
    exponent by [k]. *)
Lemma signed_integer_shifted (s : bool) (q : positive) :
  Z.pos (digits2_pos q) < prec ->
  exists k : positive,
    Z.pos k = prec - Z.pos (digits2_pos q)
    /\ signed_integer s q = S754_finite s (Pos.iter xO q k) (- Z.pos k).
Proof.
  intros Hd. unfold signed_integer.
  destruct (Z.ltb_spec (Z.pos (digits2_pos q)) prec); [|lia].
  destruct (prec - Z.pos (digits2_pos q)) as [|k|k] eqn:Hk; try lia.
  exists k. split; [done|]. rewrite <- iter_xO, Pos2Z.id. f_equal. lia.
Qed.

Lemma signed_integer_wide (s : bool) (q : positive) :
  prec <= Z.pos (digits2_pos q) -> signed_integer s q = S754_finite s q 0.
Proof.
  intros Hd. unfold signed_integer.
  by destruct (Z.ltb_spec (Z.pos (digits2_pos q)) prec); [lia|].
Qed.

(** For an integer of at most 53 bits, [signed_integer] is the number the
    rounding of the Standard Library gives: nothing is rounded away. *)
Lemma binary_round_integer (s : bool) (q : positive) :
  Z.pos (digits2_pos q) <= prec ->
  binary_round prec emax s q 0 = signed_integer s q.
Proof.
  intros Hd. unfold binary_round, shl_align.
  set (d := Z.pos (digits2_pos q)) in *.
  assert (1 <= d) by (unfold d; lia).
  assert (fexp prec emax (d + 0) = d - prec) as ->
    by (unfold fexp, emin, prec, emax in *; lia).
  destruct (Z.ltb_spec d prec) as [Hlt|Hge].
  - destruct (signed_integer_shifted s q Hlt) as (k & Hk & ->). fold d in Hk.
    replace (d - prec - 0) with (Z.neg k) by lia.
    replace (d - prec) with (- Z.pos k) by lia.
    unfold binary_round_aux, shr_fexp. cbn [Zdigits2 shr_record_of_loc].
    rewrite digits2_iter_xO. fold d.
    assert (fexp prec emax (d + Z.pos k + - Z.pos k) - - Z.pos k = 0) as ->
      by (unfold fexp, emin, prec, emax in *; lia).
    cbn [shr shr_m loc_of_shr_record round_nearest_even Zdigits2
         shr_record_of_loc].
    rewrite digits2_iter_xO. fold d.
    assert (fexp prec emax (d + Z.pos k + - Z.pos k) - - Z.pos k = 0) as ->
      by (unfold fexp, emin, prec, emax in *; lia).
    cbn [shr shr_m]. unfold prec, emax in *.
    by destruct (Z.leb_spec (- Z.pos k) (1024 - 53)); [|lia].
  - rewrite signed_integer_wide by (fold d; lia).
    replace (d - prec - 0) with 0 by lia. cbv iota.
    unfold binary_round_aux, shr_fexp. cbn [Zdigits2 shr_record_of_loc].
    fold d.
    assert (fexp prec emax (d + 0) - 0 = 0) as ->
      by (unfold fexp, emin, prec, emax in *; lia).
    cbn [shr shr_m loc_of_shr_record round_nearest_even Zdigits2
         shr_record_of_loc].
    fold d.
    assert (fexp prec emax (d + 0) - 0 = 0) as ->
      by (unfold fexp, emin, prec, emax in *; lia).
    by cbn [shr shr_m].
Qed.

Lemma of_Z_signed_integer (s : bool) (q : positive) :
  Z.pos (digits2_pos q) <= prec ->
  of_Z (if s then - Z.pos q else Z.pos q) = signed_integer s q.
Proof. intros Hd. destruct s; apply (binary_round_integer _ _ Hd). Qed.

Lemma signed_integer_valid (s : bool) (q : positive) :
  Z.pos (digits2_pos q) <= prec ->
  valid_binary prec emax (signed_integer s q) = true.
Proof.
  intros Hd. destruct (Z.ltb_spec (Z.pos (digits2_pos q)) prec) as [Hlt|Hge].
  - destruct (signed_integer_shifted s q Hlt) as (k & Hk & ->).
    cbn [valid_binary]. unfold bounded, canonical_mantissa.
    rewrite digits2_iter_xO. unfold fexp, emin, prec, emax in *. lia.
  - rewrite signed_integer_wide by done. cbn [valid_binary].
    unfold bounded, canonical_mantissa, fexp, emin, prec, emax in *. lia.
Qed.

Lemma signed_integer_is_integer (s : bool) (q : positive) :
  is_integer (signed_integer s q) = true.
Proof.
  destruct (Z.ltb_spec (Z.pos (digits2_pos q)) prec) as [Hlt|Hge].
  - destruct (signed_integer_shifted s q Hlt) as (k & _ & ->).
    cbn [is_integer].
    rewrite Z.opp_involutive, iter_xO, Z.land_ones, Z.shiftl_mul_pow2 by lia.
    rewrite Z.mod_mul by (apply Z.pow_nonzero; lia). apply orb_true_r.
  - by rewrite signed_integer_wide.
Qed.

Lemma Math_trunc_signed_integer (s : bool) (q : positive) :
  Math_trunc (signed_integer s q) = signed_integer s q.
Proof.
  destruct (Z.ltb_spec (Z.pos (digits2_pos q)) prec) as [Hlt|Hge].
  - destruct (signed_integer_shifted s q Hlt) as (k & _ & Hk).
    rewrite Hk at 1. cbn [Math_trunc].
    destruct (Z.leb_spec 0 (- Z.pos k)); [lia|].
    rewrite Z.opp_involutive, iter_xO, Z.shiftr_shiftl_l by lia.
    by rewrite Z.sub_diag.
  - by rewrite signed_integer_wide.
Qed.

Lemma Math_trunc_integer (n : spec_float) :
  Number_isFinite n = true -> is_integer (Math_trunc n) = true.
Proof.
  destruct n as [| | |s m e]; try done. intros _. cbn [Math_trunc].
  destruct (Z.leb_spec 0 e) as [He|He].
  - cbn [is_integer]. by destruct (Z.leb_spec 0 e); [|lia].
  - destruct (Z.shiftr _ _); [done| |done]. apply signed_integer_is_integer.
Qed.

Lemma Math_trunc_idempotent (n : spec_float) :
  Math_trunc (Math_trunc n) = Math_trunc n.
Proof.
  destruct n as [| | |s m e]; try done. cbn [Math_trunc].
  destruct (Z.leb_spec 0 e) as [He|He].
  - cbn [Math_trunc]. by destruct (Z.leb_spec 0 e); [|lia].
  - destruct (Z.shiftr _ _); [done| |done]. apply Math_trunc_signed_integer.
Qed.

(** A binary64 number has a mantissa of at most 53 bits, and so has its
    integer part. *)
Lemma valid_binary_digits (s : bool) (m : positive) (e : Z) :
  valid_binary prec emax (S754_finite s m e) = true ->
  Z.pos (digits2_pos m) <= prec.
Proof.
  cbn [valid_binary]. unfold bounded, canonical_mantissa, fexp, emin, prec, emax.
  intros H. apply andb_prop in H as [H _]. lia.
Qed.

Lemma shiftr_digits (m q : positive) (k : Z) :
  0 <= k -> Z.shiftr (Z.pos m) k = Z.pos q ->
  Z.pos (digits2_pos q) <= Z.pos (digits2_pos m).
Proof.
  intros Hk Hq. rewrite !digits2_log2.
  assert (Z.pos q <= Z.pos m).
  { rewrite <- Hq, Z.shiftr_div_pow2 by lia.
    apply Z.div_le_upper_bound; [apply Z.pow_pos_nonneg; lia|].
    assert (0 < 2 ^ k) by (apply Z.pow_pos_nonneg; lia). nia. }
  pose proof (Z.log2_le_mono (Z.pos q) (Z.pos m)). lia.
Qed.

(** What [toInteger] returns as a number is an integer, and [toInteger]
    returns that number for itself: converting twice is converting once. *)
Theorem toInteger_integer (v : JsValue) (n : spec_float) :
  toInteger B v = Some (JsNumber n) ->
  is_integer n = true
  /\ toInteger B (JsNumber n) = Some (JsNumber n).
Proof.
  unfold toInteger. destruct (toNumber B v) as [w|] eqn:Hw; [|done].
  destruct (toNumber_cases B _ _ Hw) as [->|(x & -> & Hx)]; [done|].
  intros [= <-]. split; [by apply Math_trunc_integer|].
  unfold toNumber. cbn [is_nullish].
  by rewrite (Math_trunc_finite _ Hx), Math_trunc_idempotent.
Qed.

(** [toInteger] rounds toward zero and keeps the sign. A binary64 number
    [m * 2^e] with fraction digits ([e < 0]) and the sign [s] becomes the
    binary64 number of the integer [q] with that sign, where
    [q <= m * 2^e < q + 1]; when [q] is 0 it becomes the zero of that
    sign. *)
Theorem toInteger_toward_zero (s : bool) (m : positive) (e : Z) :
  valid_binary prec emax (S754_finite s m e) = true ->
  e < 0 ->
  exists q r,
    0 <= q
    /\ q * 2 ^ (- e) <= Z.pos m < (q + 1) * 2 ^ (- e)
    /\ toInteger B (JsNumber (S754_finite s m e)) = Some (JsNumber r)
    /\ r = (if q =? 0 then S754_zero s else of_Z (if s then - q else q))
    /\ valid_binary prec emax r = true.
Proof.
  intros Hv He. exists (Z.shiftr (Z.pos m) (- e)), (Math_trunc (S754_finite s m e)).
  assert (0 <= Z.shiftr (Z.pos m) (- e)) as H0 by (apply Z.shiftr_nonneg; lia).
  split; [done|]. split; [|split; [done|]].
  - rewrite Z.shiftr_div_pow2 by lia.
    assert (0 < 2 ^ (- e)) by (apply Z.pow_pos_nonneg; lia).
    pose proof (Z.div_mod (Z.pos m) (2 ^ (- e))).
    pose proof (Z.mod_pos_bound (Z.pos m) (2 ^ (- e))). nia.
  - cbn [Math_trunc]. destruct (Z.leb_spec 0 e); [lia|].
    destruct (Z.shiftr (Z.pos m) (- e)) as [|q|q] eqn:Hq; [done| |lia].
    assert (Z.pos (digits2_pos q) <= prec) as Hd.
    { pose proof (valid_binary_digits s m e Hv).
      pose proof (shiftr_digits m q (- e) ltac:(lia) Hq). lia. }
    split; [|by apply signed_integer_valid].
    replace (Z.pos q =? 0) with false by done.
    symmetry. by apply of_Z_signed_integer.
Qed.

(** [normalizeBacktestResult] does not throw on a payload whose status and
    whose chosen metric values are primitives (strings, numbers, booleans,
    [null], [undefined], fields that are absent): it returns a result. *)
Theorem normalizeBacktestResult_total_on_primitives payload :
  primitive (get payload "status") = true ->
  (forall key, key ∈ (NUMERIC_METRIC_KEYS ++ INTEGER_METRIC_KEYS)%list ->
     primitive (pickTopLevelOrMetric payload key) = true) ->
  exists normalized, normalizeBacktestResult B payload = Some normalized.
Proof.
  intros Hst Hkeys. unfold normalizeBacktestResult, normalizeBacktestStatus.
  assert (is_Some (ToString B
            (nullish_coalesce (get payload "status") (JsString EmptyString))))
    as [s ->].
  { apply ToString_primitive. unfold nullish_coalesce.
    by destruct (is_nullish _). }
  destruct (assign_metrics (toNumber B) payload NUMERIC_METRIC_KEYS _)
    as [m1|] eqn:H1.
  - apply assign_metrics_is_Some, Forall_forall.
    intros key Hk. apply toInteger_primitive, Hkeys, elem_of_app. by right.
  - assert (is_Some (@None (gmap string JsValue))) as [? ?]; [|done].
    rewrite <- H1. apply assign_metrics_is_Some, Forall_forall.
    intros key Hk. apply toNumber_primitive, Hkeys, elem_of_app. by left.
Qed.

(** The page shows a metric exactly when it is a finite number: on a field
    of a normalised result, [hasDefinedNumber] holds exactly for finite
    numbers, and the field is never [null]. *)
Theorem shown_metric_is_finite payload normalized key :
  normalizeBacktestResult B payload = Some normalized ->
  key ∈ (NUMERIC_METRIC_KEYS ++ INTEGER_METRIC_KEYS)%list ->
  get normalized key <> JsNull
  /\ (BacktestPage.hasDefinedNumber (get normalized key) = true
      <-> exists n, get normalized key = JsNumber n
                    /\ Number_isFinite n = true).
Proof.
  intros H Hkey.
  destruct (normalized_lookup B _ _ _ H Hkey) as (v & Hv & Hconv).
  unfold get. rewrite Hv. simpl. unfold metric_conversion in Hconv.
  assert (v = JsUndefined
          \/ exists n, v = JsNumber n /\ Number_isFinite n = true) as Hcases.
  { destruct (decide (key ∈ INTEGER_METRIC_KEYS)).
    - by apply toInteger_cases in Hconv.
    - by apply toNumber_cases in Hconv. }
  destruct Hcases as [->|(n & -> & Hn)].
  - split; [done|]. split; [done|]. by intros (n & ? & _).
  - split; [done|]. split; [by exists n | done].
Qed.


(** [api.backtests.list] keeps the number and the order of the items: the
    i-th item of the result is the normalised i-th item of the response. *)
Theorem backtests_list_items_spec
    (items out : list (gmap string JsValue)) :
  backtests_list_items B items = Some out ->
  length out = length items
  /\ forall i item, items !! i = Some item ->
       exists normalized,
         out !! i = Some normalized
         /\ normalizeBacktestResult B item = Some normalized.
Proof.
  revert out. induction items as [|item rest IH]; intros out; simpl.
  - intros [= <-]. split; [done|]. intros i item Hi. by destruct i.
  - destruct (normalizeBacktestResult B item) as [n|] eqn:Hn; [|done].
    destruct (backtests_list_items B rest) as [others|]; [|done].
    intros [= <-]. destruct (IH others eq_refl) as [Hlen Hall].
    split; [simpl; by rewrite Hlen|].
    intros [|i] it Hi; simpl in *.
    + injection Hi as <-. by exists n.
    + by apply Hall.
Qed.
End MoreApiFacts.

(* ================================================================== *)
(** * More facts: query keys, list polling, enabling                   *)
(* ================================================================== *)

Section KeyFacts.
Import BacktestKeys.

(** What the terminal handler's two invalidations reach. The key [lists]
    reaches every list query and no detail or status query; the key
    [detail id] reaches the detail query of [id] alone: no other job's
    detail, no status query, no list. *)
Theorem invalidation_reach (id : Z) :
  (forall strategyId page pageSize,
     reaches lists (list strategyId page pageSize))
  /\ (forall other, ~ reaches lists (detail other))
  /\ (forall other, ~ reaches lists (status other))
  /\ (forall other, reaches (detail id) (detail other) <-> other = id)
  /\ (forall other, ~ reaches (detail id) (status other))
  /\ (forall strategyId page pageSize,
        ~ reaches (detail id) (list strategyId page pageSize)).
Proof.
  unfold reaches.
  split; [intros; by apply prefix_app_r|].
  split; [intros other [k Hk]; discriminate|].
  split; [intros other [k Hk]; discriminate|].
  split.
  { intros other. split.
    - intros [k Hk]. by injection Hk as ->.
    - intros ->. reflexivity. }
  split; [intros other [k Hk]; discriminate|].
  intros ? ? ? [k Hk]; discriminate.
Qed.

(** Jobs do not share cache entries: the detail keys, and the status keys,
    of two ids are equal only for equal ids, and no detail key is a status
    key. Every key begins with [all]. *)
Theorem keys_distinct (id other : Z) :
  (detail id = detail other <-> id = other)
  /\ (status id = status other <-> id = other)
  /\ detail id <> status other
  /\ reaches all (detail id) /\ reaches all (status id) /\ reaches all lists.
Proof.
  unfold reaches.
  split; [split; [by intros [= ->] | by intros ->]|].
  split; [split; [by intros [= ->] | by intros ->]|].
  split; [discriminate|].
  split; [by exists [KeyString "detail"; KeyNumber id]|].
  split; [by exists [KeyString "status"; KeyNumber id]|].
  by exists [KeyString "list"].
Qed.
End KeyFacts.

Section QueryFacts.
Import Hooks Queries.

(** A normalised status is pending or running exactly when it is not
    terminal. *)
Lemma normalized_status_phase (s : string) :
  let status := normalizeStatusString s in
  (status = "pending" \/ status = "running") <-> isTerminal status = false.
Proof.
  intros status. subst status. unfold normalizeStatusString.
  pose proof (status_switch_value (toLowerCase s)) as Hv.
  unfold BacktestStatusValues in Hv.
  rewrite !elem_of_cons, elem_of_nil in Hv.
  destruct Hv as [->|[->|[->|[->|[->|[]]]]]]; vm_compute; intuition congruence.
Qed.

(** The list of backtests is refetched every 1500 ms exactly when live
    polling is on and some item is not in a terminal status; with live
    polling on, the interval is [false] exactly when every item is terminal
    (so also without data and for an empty list). *)
Theorem useBacktests_refetchInterval_spec
    (livePolling : bool) (items : option (Datatypes.list ResultData)) :
  (useBacktests_refetchInterval livePolling items = RefetchEvery 1500
   <-> livePolling = true
       /\ exists item, item ∈ default [] items
            /\ isTerminal (normalizeStatusString (rd_status item)) = false)
  /\ (useBacktests_refetchInterval livePolling items = NoRefetch
      <-> livePolling = false
          \/ Forall (fun item =>
                isTerminal (normalizeStatusString (rd_status item)) = true)
               (default [] items)).
Proof.
  unfold useBacktests_refetchInterval.
  destruct livePolling; simpl.
  2: { split; split; try done; [by intros [? _] | by left]. }
  set (l := default [] items).
  set (running := fun item : ResultData => _).
  assert (forall item, running item = true
            <-> isTerminal (normalizeStatusString (rd_status item)) = false)
    as Hrun.
  { intros item. subst running. cbv beta.
    rewrite <- normalized_status_phase. simpl.
    rewrite orb_true_iff.
    by destruct (String.eqb_spec (normalizeStatusString (rd_status item)) "pending"),
      (String.eqb_spec (normalizeStatusString (rd_status item)) "running");
      intuition congruence. }
  destruct (existsb running l) eqn:Hex.
  - apply existsb_exists in Hex as (item & Hin & Hr).
    apply list_elem_of_In in Hin. apply Hrun in Hr.
    split; split; try done.
    + intros _. split; [done|]. by exists item.
    + intros [?|Hall]; [done|]. rewrite Forall_forall in Hall.
      specialize (Hall _ Hin). congruence.
  - split; split; try done.
    + intros [_ (item & Hin & Hr)]. apply Hrun in Hr.
      assert (existsb running l = true) as Habs
        by (apply existsb_exists; exists item; by rewrite <- list_elem_of_In).
      congruence.
    + intros _. right. apply Forall_forall. intros item Hin.
      destruct (isTerminal _) eqn:Ht; [done|]. apply Hrun in Ht.
      assert (existsb running l = true) as Habs
        by (apply existsb_exists; exists item; by rewrite <- list_elem_of_In).
      congruence.
Qed.

(** In [useBacktestWithPolling] the result query is enabled exactly for a
    positive id and the status query exactly for a non-zero id: whenever the
    result is fetched the status is polled, and without a job (no id, or 0)
    neither runs, the status query resting on the key of id 0. *)
Theorem queries_enabled (s : HookState) :
  (resultQuery_enabled s = true
   <-> exists id, backtestId s = Some id /\ 0 < id)
  /\ (statusQuery_enabled s = true
      <-> exists id, backtestId s = Some id /\ id <> 0)
  /\ (resultQuery_enabled s = true -> statusQuery_enabled s = true)
  /\ (statusQuery_enabled s = false ->
      statusQuery_key s = BacktestKeys.status 0).
Proof.
  unfold resultQuery_enabled, statusQuery_enabled, useBacktest_enabled,
    useBacktestStatus_enabled, statusQuery_key, id_or_zero, truthy_id.
  destruct (backtestId s) as [id|]; simpl;
    [destruct (Z.eqb_spec id 0) as [->|Hne]; simpl;
     [|destruct (Z.ltb_spec 0 id)]|];
    repeat split; try done;
    try (intros (i & Hi & ?); first [discriminate Hi | injection Hi as <-; lia]);
    try (intros _; eexists; split; [reflexivity | lia]);
    rewrite ?andb_false_r; done.
Qed.
End QueryFacts.

(* ================================================================== *)
(** * More facts: the polling component                                *)
(* ================================================================== *)

Section MoreHookFacts.
Import Hooks.

(** A render leaves the effects of the terminal handler, or none. *)
Lemma render_fires (s : HookState) sd rd :
  (render s sd rd).2 = []
  \/ exists id,
       backtestId s = Some id
       /\ (render s sd rd).2
          = terminal_handler id (finalStatus sd rd) (optional_message sd).
Proof.
  unfold render. case_decide as Hdeps; [by left|].
  unfold effect_body, truthy_id.
  destruct (backtestId s) as [id|] eqn:Hid; [|by left].
  destruct (Z.eqb_spec id 0) as [->|Hne]; [by left|].
  destruct (isTerminal (finalStatus sd rd)) eqn:Ht; [|by left]. simpl.
  case_decide as Hm; [by left|].
  right. by exists id.
Qed.

(** Side effects come from the terminal handler alone, and only when it is
    due: a render has no effect at all unless a non-zero job id is stored,
    the status is terminal and differs from the marker; then the effects are
    those of the handler, and the marker is the status afterwards. *)
Theorem render_effects (s : HookState) sd rd :
  (render s sd rd).2 = []
  \/ exists id,
       backtestId s = Some id /\ id <> 0
       /\ isTerminal (finalStatus sd rd) = true
       /\ completedStateRef s <> Some (finalStatus sd rd)
       /\ (render s sd rd).2
          = terminal_handler id (finalStatus sd rd) (optional_message sd)
       /\ completedStateRef (render s sd rd).1 = Some (finalStatus sd rd).
Proof.
  unfold render. case_decide as Hdeps; [by left|].
  unfold effect_body, truthy_id.
  destruct (backtestId s) as [id|] eqn:Hid; [|by left].
  destruct (Z.eqb_spec id 0) as [->|Hne]; [by left|].
  destruct (isTerminal (finalStatus sd rd)) eqn:Ht; [|by left]. simpl.
  case_decide as Hm; [by left|].
  right. exists id. by repeat split.
Qed.


(** The marker holds a status, not a job: when the stored id changes to
    another job while the marker is still the status [t] (no [reset] and no
    new [runBacktest] call in between), polls of the new job whose terminal
    statuses are [t] do not fire the handler. *)
Theorem marker_outlives_id_change
    (s : HookState) (id1 id2 : Z) (t : string) sd1 rd1 renders :
  handled id1 t s -> id2 <> 0 ->
  Forall (fun r => isTerminal (finalStatus r.1 r.2) = true ->
                   finalStatus r.1 r.2 = t) ((sd1, rd1) :: renders) ->
  (run s ((RunBacktestResolved id2, sd1, rd1) :: polls renders)).2 = [].
Proof.
  intros (Hid & Href) Hid2 Hsame. rewrite run_resolved_cons.
  apply (run_polls_handled id2 t); [done| |done].
  by split.
Qed.

Lemma step_marker (s : HookState) (st : Step) :
  (forall t, completedStateRef s = Some t ->
     isTerminal t = true /\ exists id, backtestId s = Some id) ->
  forall t, completedStateRef (step s st).1 = Some t ->
    isTerminal t = true /\ exists id, backtestId (step s st).1 = Some id.
Proof.
  intros Hinv t. destruct st as [[a sd] rd]. unfold step.
  assert (forall u, completedStateRef (act s a) = Some u ->
            isTerminal u = true /\ exists id, backtestId (act s a) = Some id)
    as Hact.
  { destruct a; simpl; try done.
    - intros u Hu. split; [by apply (Hinv u)|]. eauto. }
  revert Hact. generalize (act s a) as s1. intros s1 Hact.
  unfold render. case_decide as Hdeps; [apply Hact|].
  unfold effect_body, truthy_id.
  destruct (backtestId s1) as [id|] eqn:Hid; [|done].
  destruct (Z.eqb_spec id 0) as [->|Hne]; [done|].
  destruct (isTerminal (finalStatus sd rd)) eqn:Ht; simpl.
  - case_decide as Hm; simpl.
    + intros Ht'. split; [by apply (Hact t)|]. eauto.
    + intros [= <-]. split; [done|]. eauto.
  - intros Ht'. split; [by apply (Hact t)|]. eauto.
Qed.

(** In every state the component can reach, the marker is [null] or a
    terminal status, and it is set only while a job id is stored. *)
Theorem marker_is_terminal_status (steps : list Step) (t : string) :
  completedStateRef (run initial steps).1 = Some t ->
  isTerminal t = true
  /\ exists id, backtestId (run initial steps).1 = Some id.
Proof.
  assert (forall s,
            (forall t, completedStateRef s = Some t ->
               isTerminal t = true /\ exists id, backtestId s = Some id) ->
            forall t, completedStateRef (run s steps).1 = Some t ->
              isTerminal t = true
              /\ exists id, backtestId (run s steps).1 = Some id) as Hgen.
  { induction steps as [|st rest IH]; intros s Hs; [done|].
    rewrite run_cons. cbn [fst]. apply IH. by apply step_marker. }
  apply Hgen. done.
Qed.

Lemma terminal_handler_elem (id : Z) (t : string) m (x : Effect) :
  x ∈ terminal_handler id t m ->
  x = InvalidateQueries ListsKey \/ x = RefetchActiveQueries ListsKey
  \/ x = InvalidateQueries (DetailKey id) \/ x = RefetchResult
  \/ x = ToastSuccess \/ x = ToastError m.
Proof.
  unfold terminal_handler.
  destruct (String.eqb t "completed"), (String.eqb t "failed");
    rewrite elem_of_app, !elem_of_cons, !elem_of_nil; tauto.
Qed.

(** Whatever a render invalidates or refetches is the lists key or the
    detail key of the stored job id, and neither reaches a status query: the
    handler never restarts the polling. *)
Theorem handler_spares_status_queries (s : HookState) sd rd
    (k : QueryKey) (other : Z) :
  InvalidateQueries k ∈ (render s sd rd).2
  \/ RefetchActiveQueries k ∈ (render s sd rd).2 ->
  ~ BacktestKeys.reaches (BacktestKeys.key_of k) (BacktestKeys.status other)
  /\ (k = ListsKey \/ exists id, backtestId s = Some id /\ k = DetailKey id).
Proof.
  intros Hin.
  assert (k = ListsKey \/ exists id, backtestId s = Some id /\ k = DetailKey id)
    as Hk.
  { destruct (render_fires s sd rd) as [He|(id & Hid & He)];
      rewrite He in Hin.
    - destruct Hin as [Hin|Hin]; by apply elem_of_nil in Hin.
    - destruct Hin as [Hin|Hin]; apply terminal_handler_elem in Hin;
        destruct Hin as [Hin|[Hin|[Hin|[Hin|[Hin|Hin]]]]];
        try discriminate Hin; injection Hin as ->; eauto. }
  split; [|done].
  destruct Hk as [->|(id & _ & ->)]; intros [x Hx]; discriminate.
Qed.
End MoreHookFacts.

(* ================================================================== *)
(** * More facts: the wizard and the interceptors                      *)
(* ================================================================== *)

Section MoreWizardFacts.
Import NewStrategy Wizard.

(** A type found in [strategyTypes] is one of the five ids: lowercase, not
    empty, and with a row of defaults. *)
Lemma find_strategy_id (t : string) (st : StrategyType) :
  find_strategy t = Some st ->
  id st = t /\ toLowerCase t = t /\ is_Some (defaultParams t)
  /\ t <> EmptyString.
Proof.
  unfold find_strategy, strategyTypes. cbn [List.find id].
  repeat (match goal with
          | |- context [String.eqb ?a t] =>
              destruct (String.eqb_spec a t) as [<-|?];
              [intros [= <-];
               split; [reflexivity|]; split; [reflexivity|];
               split; [by eexists | discriminate]|]
          end).
  done.
Qed.

(** Every row of [defaultParams] stays within the slider ranges and never
    sets [use_ema] to [false]. *)
Lemma defaultParams_ranges (type : string) (typeDefaults : Params -> Params)
    (prev : Params) :
  defaultParams type = Some typeDefaults ->
  3 <= fast_period (typeDefaults prev) <= 50
  /\ 10 <= slow_period (typeDefaults prev) <= 200
  /\ (1 <= sentiment_lookback prev <= 14 ->
      1 <= sentiment_lookback (typeDefaults prev) <= 14)
  /\ 0 <= stop_loss (typeDefaults prev) <= 30
  /\ 0 <= take_profit (typeDefaults prev) <= 50
  /\ (use_ema prev = true -> use_ema (typeDefaults prev) = true).
Proof.
  unfold defaultParams.
  repeat (match goal with
          | |- context [String.eqb ?a ?b] => destruct (String.eqb a b)
          end; [intros [= <-]; simpl; repeat split; try lia; done|]).
  done.
Qed.

Lemma select_type_well_formed (t : string) (s : State) :
  known_type t -> well_formed s -> well_formed (select_type t s).
Proof.
  intros Hk (Hty & Hsel & Hf & Hs & Hl & Hsl & Htp). unfold select_type.
  destruct (defaultParams t) as [f|] eqn:Hf'.
  - destruct (defaultParams_ranges t f (params s) Hf')
      as (? & ? & Hl' & ? & ? & _).
    repeat split; simpl; try lia; try (apply Hl'; lia).
    + by intros ? [= <-].
    + eauto.
  - repeat split; simpl; try lia.
    + by intros ? [= <-].
    + eauto.
Qed.

Lemma dispatch_well_formed (pg : Page) (e : Event) :
  invariant (current pg) /\ well_formed (current pg) ->
  invariant (shown pg) /\ well_formed (shown pg) ->
  enabled pg e = true ->
  invariant (dispatch pg e).1 /\ well_formed (dispatch pg e).1.
Proof.
  intros [Hinv Hwf] [Hinv' Hwf'] He.
  split; [by apply dispatch_invariant|].
  destruct Hinv as (Hstep & _).
  pose proof Hwf as (Hty & Hsel & Hf & Hs & Hl & Hsl & Htp).
  pose proof Hwf' as (_ & _ & Hf' & Hs' & Hl' & Hsl' & Htp').
  destruct e; simpl in He |- *;
    try (apply andb_prop in He as [He Hsl2]);
    try (apply andb_prop in He as [He Hai]);
    try (apply slider_range in Hsl2);
    try (repeat split; simpl; (lia || done)).
  - unfold searchParams_effect. destruct type as [t|]; [|done].
    destruct (negb _ && _) eqn:Hc; [|done].
    apply andb_prop in Hc as [_ Hc]. apply bool_decide_eq_true_1 in Hc.
    by apply select_type_well_formed.
  - apply bool_decide_eq_true_1 in Hsl2. by apply select_type_well_formed.
  - unfold handleNext.
    destruct (no_type (selectedType (current pg))) eqn:Hnt.
    + destruct (Z.eqb_spec (step (current pg)) 1) as [H1|H1]; simpl in *;
        [done|].
      destruct ((step (current pg) =? 2) && _); [done|].
      repeat split; simpl; try lia; try done. intros _. apply Hsel. lia.
    + rewrite andb_false_r.
      destruct ((step (current pg) =? 2) && _); [done|].
      repeat split; simpl; try lia; try done. intros _.
      destruct (selectedType (current pg)); [eauto | done].
  - repeat split; simpl; try lia; try done. intros H2. apply Hsel. lia.
  - unfold handleSubmit. destruct (trim_is_empty _); [done|].
    by destruct (selectedType (current pg)).
Qed.

Lemma initial_well_formed : well_formed initial.
Proof. repeat split; simpl; try lia; try done. Qed.

Lemma reachable_well_formed (pg : Page) :
  reachable pg -> well_formed (current pg) /\ well_formed (shown pg).
Proof.
  intros Hr.
  assert (invariant initial /\ well_formed initial) as Hinit
    by (split; [split; simpl; lia | apply initial_well_formed]).
  by destruct (reachable_both (fun s => invariant s /\ well_formed s)
                 Hinit dispatch_well_formed pg Hr) as [[_ ?] [_ ?]].
Qed.

Lemma submit_request (pg : Page) (e : Event) (input : CreateStrategyInput) :
  CreateStrategy input ∈ (dispatch pg e).2 ->
  let s := current pg in
  name input = strategyName s
  /\ trim_is_empty (strategyName s) = false
  /\ description input = selectedStrategy s
  /\ exists t, selectedType s = Some t /\ strategy_type input = toLowerCase t.
Proof.
  intros Hin s. subst s.
  destruct e; simpl in Hin; try (by apply elem_of_nil in Hin).
  - unfold handleNext in Hin.
    repeat (destruct (_ && _) in Hin; simpl in Hin;
            [apply list_elem_of_singleton in Hin; discriminate|]).
    by apply elem_of_nil in Hin.
  - unfold handleSubmit in Hin. destruct (trim_is_empty _) eqn:Hname.
    + apply list_elem_of_singleton in Hin; discriminate.
    + destruct (selectedType (current pg)) as [t|] eqn:Ht; simpl in Hin;
        [|by apply elem_of_nil in Hin].
      apply list_elem_of_singleton in Hin. injection Hin as ->. simpl.
      repeat split. by exists t.
Qed.

(** Every create request of a session has a name that is not blank (not
    empty, and not white space only, as [trim] sees it), names one of the
    five strategy types of [strategyTypes] as its [strategy_type], and
    carries that type's description. *)
Theorem create_request_names_known_type
    (events : list Event) (pg : Page) (effects : list Effect)
    (input : CreateStrategyInput) :
  run opened events = Some (pg, effects) ->
  CreateStrategy input ∈ effects ->
  trim_is_empty (name input) = false
  /\ exists st,
       st ∈ strategyTypes
       /\ strategy_type input = id st
       /\ description input = Some st.
Proof.
  intros Hrun Hin.
  destruct (run_effect _ _ _ _ _ reachable_opened Hrun Hin)
    as (pg1 & e & Hpg1 & He & Hx).
  destruct (submit_request _ _ _ Hx) as (Hn & Hne & Hd & t & Ht & Hty).
  split; [by rewrite Hn|].
  destruct (reachable_well_formed _ Hpg1) as [(Hknown & _) _].
  destruct (Hknown t Ht) as [st Hst].
  destruct (find_strategy_id t st Hst) as (Hid & Hlow & _).
  exists st. split.
  - apply list_elem_of_In. by apply (find_some _ _ Hst).
  - split; [by rewrite Hty, Hlow, Hid|].
    rewrite Hd. unfold selectedStrategy. by rewrite Ht.
Qed.

(** Every create request of a session carries parameters within the ranges
    of their sliders: a fast period of 3 to 50, a slow period of 10 to 200,
    a look-back of 1 to 14, a stop loss of 0 to 30, a take profit of 0 to 50
    and a position size of 10 to 100 percent; also when a slider of a panel
    that was leaving has been moved. *)
Theorem create_request_within_slider_ranges
    (events : list Event) (pg : Page) (effects : list Effect)
    (input : CreateStrategyInput) :
  run opened events = Some (pg, effects) ->
  CreateStrategy input ∈ effects ->
  let p := config_params (logic_config input) in
  3 <= fast_period p <= 50
  /\ 10 <= slow_period p <= 200
  /\ 1 <= sentiment_lookback p <= 14
  /\ 0 <= stop_loss p <= 30
  /\ 0 <= take_profit p <= 50
  /\ 10 <= position_size p <= 100.
Proof.
  intros Hrun Hin p.
  destruct (run_effect _ _ _ _ _ reachable_opened Hrun Hin)
    as (pg1 & e & Hpg1 & He & Hx).
  destruct (create_request _ _ _ He Hx) as (H3 & Hp & _).
  subst p. rewrite Hp.
  destruct (reachable_invariant _ Hpg1) as [(_ & Hpos) _].
  destruct (reachable_well_formed _ Hpg1) as [(_ & _ & ? & ? & ? & ? & ?) _].
  lia.
Qed.

Lemma dispatch_use_ema (pg : Page) (e : Event) :
  use_ema (params (current pg)) = true ->
  use_ema (params (shown pg)) = true ->
  use_ema (params (dispatch pg e).1) = true.
Proof.
  intros Hu Hu'.
  assert (forall t s0, use_ema (params s0) = true ->
            use_ema (params (select_type t s0)) = true) as Hsel.
  { intros t s0 H0. unfold select_type.
    destruct (defaultParams t) as [f|] eqn:Hf; [|done]. simpl.
    by apply (defaultParams_ranges t f _ Hf). }
  destruct e; simpl; try done.
  - unfold searchParams_effect. destruct type; [|done].
    destruct (_ && _); [by apply Hsel | done].
  - by apply Hsel.
  - unfold handleNext. by repeat destruct (_ && _).
  - unfold handleSubmit. destruct (trim_is_empty _); [done|].
    by destruct (selectedType (current pg)).
Qed.

(** Nothing on the page sets [use_ema] back to [false]: once it is [true]
    in the component's state and in the [params] the mounted panel was
    rendered with (the EMA type was selected, and no panel from before is
    still leaving), it stays [true] through every event, also through the
    selection of another type, and every later create request carries
    [use_ema = true]. *)
Theorem use_ema_is_never_switched_off
    (pg : Page) (events : list Event) (pg' : Page) (effects : list Effect)
    (input : CreateStrategyInput) :
  use_ema (params (current pg)) = true ->
  use_ema (params (shown pg)) = true ->
  run pg events = Some (pg', effects) ->
  use_ema (params (current pg')) = true
  /\ (CreateStrategy input ∈ effects ->
      use_ema (config_params (logic_config input)) = true).
Proof.
  revert pg effects.
  induction events as [|e rest IH]; intros pg effects Hu Hu'; cbn [run].
  - intros [= <- <-]. split; [done|]. intros Hin. by apply elem_of_nil in Hin.
  - destruct (enabled pg e) eqn:He; [|done].
    pose proof (dispatch_use_ema pg e Hu Hu') as Hu1.
    assert (use_ema (params (shown (handle pg e).1)) = true) as Hu1'
      by (by destruct (handle_shown pg e) as [-> | ->]).
    change (dispatch pg e).1 with (current (handle pg e).1) in Hu1.
    assert ((handle pg e).2 = (dispatch pg e).2) as Heff by done.
    destruct (handle pg e) as [pg1 e1] eqn:Hh. cbn [fst snd] in *.
    destruct (run pg1 rest) as [[pg2 e2]|] eqn:Hr; [|done].
    intros [= <- <-]. destruct (IH pg1 e2 Hu1 Hu1' Hr) as [Hs2 Hreq].
    split; [done|]. intros Hin. apply elem_of_app in Hin as [Hin|Hin]; [|auto].
    rewrite Heff in Hin.
    destruct (create_request _ _ _ He Hin) as (_ & -> & _). done.
Qed.

(** A panel that is the panel of the current step has been rendered with
    the current state. *)
Lemma handle_present (pg : Page) (e : Event) :
  (step (shown pg) = step (current pg) -> shown pg = current pg) ->
  step (shown (handle pg e).1) = step (current (handle pg e).1) ->
  shown (handle pg e).1 = current (handle pg e).1.
Proof.
  unfold handle, rendered. cbn [fst current shown]. intros Hpg.
  destruct e; try done;
    match goal with
    | |- context [if ?a =? ?b then _ else _] =>
        destruct (Z.eqb_spec a b); [done | intros ?; congruence]
    end.
Qed.

(** The order of the periods on step 3 is kept by every event but the
    controls of a leaving panel. *)
Lemma handle_period_order (pg : Page) (e : Event) :
  invariant (current pg) ->
  (step (shown pg) = step (current pg) -> shown pg = current pg) ->
  (step (current pg) = 3 ->
   fast_period (params (current pg)) < slow_period (params (current pg))) ->
  enabled pg e = true ->
  panel_event e && leaving pg = false ->
  let s := current (handle pg e).1 in
  step s = 3 -> fast_period (params s) < slow_period (params s).
Proof.
  intros (Hstep & _) Hpresent Hord He Hpat s. subst s.
  assert (forall t s0,
            (step s0 = 3 -> fast_period (params s0) < slow_period (params s0)) ->
            step (select_type t s0) = 3 ->
            fast_period (params (select_type t s0))
            < slow_period (params (select_type t s0))) as Hsel.
  { intros t s0 H0. unfold select_type.
    destruct (defaultParams t) as [f|] eqn:Hf; [|done]. simpl. intros _.
    by apply (defaultParams_sound t f _ Hf). }
  assert (panel_event e = true -> step (shown pg) = step (current pg)) as Hon.
  { intros Hp. rewrite Hp in Hpat. unfold leaving in Hpat. simpl in Hpat.
    apply negb_false_iff in Hpat. lia. }
  clear Hpat. unfold handle, rendered. cbn [fst current].
  destruct e; simpl in He |- *;
    try (apply andb_prop in He as [He ?]);
    try (apply andb_prop in He as [He ?]);
    try (specialize (Hon eq_refl); lia);
    try done.
  - unfold searchParams_effect. destruct type as [t|]; [|done].
    destruct (_ && _); [by apply Hsel | done].
  - by apply Hsel.
  - unfold handleNext.
    destruct (_ && _); [done|].
    destruct (Z.eqb_spec (step (current pg)) 2) as [H2|H2]; simpl.
    + destruct (Z.geb_spec (fast_period (params (current pg)))
                  (slow_period (params (current pg)))); simpl; [done|lia].
    + simpl. lia.
  - lia.
  - unfold handleSubmit. destruct (trim_is_empty _); [done|].
    by destruct (selectedType (current pg)).
Qed.

(** In a session in which no control of a leaving panel is used (every
    slider is moved while its panel is the panel of the current step), each
    create request carries a fast period below the slow period: step 3 is
    entered through the check of [handleNext] only, and every row of
    [defaultParams] has its fast period below its slow one. *)
Theorem patient_request_keeps_period_order
    (events : list Event) (pg : Page) (effects : list Effect)
    (input : CreateStrategyInput) :
  run opened events = Some (pg, effects) ->
  patient opened events = true ->
  CreateStrategy input ∈ effects ->
  fast_period (config_params (logic_config input))
  < slow_period (config_params (logic_config input)).
Proof.
  assert (forall pg0,
            reachable pg0 ->
            (step (shown pg0) = step (current pg0) -> shown pg0 = current pg0) ->
            (step (current pg0) = 3 ->
             fast_period (params (current pg0))
             < slow_period (params (current pg0))) ->
            forall effects0,
              run pg0 events = Some (pg, effects0) ->
              patient pg0 events = true ->
              CreateStrategy input ∈ effects0 ->
              fast_period (config_params (logic_config input))
              < slow_period (config_params (logic_config input))) as Hgen.
  { clear effects. induction events as [|e rest IH];
      intros pg0 Hr Hpresent Hord effects0; cbn [run patient].
    - intros [= _ <-] _ Hin. by apply elem_of_nil in Hin.
    - destruct (enabled pg0 e) eqn:He; [|done].
      assert ((handle pg0 e).2 = (dispatch pg0 e).2) as Heff by done.
      destruct (reachable_invariant _ Hr) as [Hinv _].
      pose proof (handle_present pg0 e Hpresent) as Hpresent1.
      pose proof (reachable_step pg0 e Hr He) as Hr1.
      intros Hrun Hpat. apply andb_prop in Hpat as [Hpat Hrest].
      apply negb_true_iff in Hpat.
      pose proof (handle_period_order pg0 e Hinv Hpresent Hord He Hpat) as Hord1.
      cbv zeta in Hord1.
      destruct (handle pg0 e) as [pg1 e1] eqn:Hh. cbn [fst snd] in *.
      destruct (run pg1 rest) as [[pg2 e2]|] eqn:Hrun1; [|done].
      injection Hrun as <- <-. intros Hin.
      apply elem_of_app in Hin as [Hin|Hin].
      + rewrite Heff in Hin.
        destruct (create_request _ _ _ He Hin) as (H3 & -> & _). auto.
      + by apply (IH pg1 Hr1 Hpresent1 Hord1 e2). }
  intros Hrun Hpat Hin.
  by apply (Hgen opened reachable_opened) with effects.
Qed.

(** On steps 1 and 2, [handleBack] undoes a [handleNext] that went through
    (one without an error toast): the state is the one before. *)
Theorem handleBack_undoes_handleNext (s : State) :
  step s = 1 \/ step s = 2 ->
  (handleNext s).2 = [] ->
  handleBack (handleNext s).1 = s.
Proof.
  intros Hstep. unfold handleNext.
  destruct (_ && _); [done|]. destruct (_ && _); [done|]. intros _.
  unfold handleBack, with_step. destruct s as [st ty nm adv p].
  cbn [step selectedType strategyName advancedOpen params fst] in *.
  f_equal. lia.
Qed.
End MoreWizardFacts.

Section InterceptorFacts.
Import ApiClient.

Lemma prefix_spec (needle s : string) :
  String.prefix needle s = true <-> exists rest, s = needle ++ rest.
Proof.
  revert s. induction needle as [|c needle IH]; intros s.
  - split; [intros _; by exists s | by destruct s].
  - destruct s as [|d s]; simpl.
    + split; [done | by intros [? ?]].
    + destruct (Ascii.ascii_dec c d) as [->|Hne].
      * rewrite IH. split; intros [rest Hr]; exists rest; [by rewrite Hr|].
        by injection Hr.
      * split; [done|]. intros [rest Hr]. by injection Hr as -> _.
Qed.

(** [includes] is the substring test. *)
Lemma includes_spec (needle s : string) :
  includes needle s = true <-> exists before after, s = before ++ needle ++ after.
Proof.
  induction s as [|c s IH]; cbn [includes].
  - rewrite orb_false_r, prefix_spec. split.
    + intros [rest Hr]. by exists EmptyString, rest.
    + intros (b & a & H). destruct b; [by exists a|done].
  - rewrite orb_true_iff, prefix_spec, IH. split.
    + intros [[rest Hr]|(b & a & H)].
      * by exists EmptyString, rest.
      * exists (String c b), a. simpl. by rewrite H.
    + intros (b & a & H). destruct b as [|d b].
      * left. by exists a.
      * right. exists b, a. by injection H.
Qed.

(** A 401 response in the browser removes the access token and nothing else
    from [localStorage], so that the request interceptor adds no
    [Authorization] header afterwards; the page is sent to [/login] exactly
    when its path does not already contain [/login]. *)
Theorem unauthorized_clears_token (w : Window)
    (headers : option (gmap string string)) :
  exists w',
    response_error_interceptor (Some 401) (Some w) = Some w'
    /\ localStorage w' !! "access_token" = None
    /\ (forall key, key <> "access_token" ->
          localStorage w' !! key = localStorage w !! key)
    /\ request_interceptor (Some w') headers = headers
    /\ ((exists before after, pathname w = before ++ "/login" ++ after)
        -> href w' = href w)
    /\ (~ (exists before after, pathname w = before ++ "/login" ++ after)
        -> href w' = Some "/login").
Proof.
  unfold response_error_interceptor.
  change (pathname (removeItem "access_token" w)) with (pathname w).
  destruct (includes "/login" (pathname w)) eqn:Hinc; simpl;
    eexists; (split; [reflexivity|]); simpl;
    (split; [apply lookup_delete_eq|]);
    (split; [intros key Hne; by apply lookup_delete_ne|]);
    (split; [unfold request_interceptor; simpl; by rewrite lookup_delete_eq|]).
  - split; [done|]. intros Hn. destruct Hn. by apply includes_spec.
  - split; [|done]. intros Hy. apply includes_spec in Hy. congruence.
Qed.

(** A stored, non-empty access token is sent: the request interceptor sets
    the [Authorization] header to [Bearer] and the token and keeps every
    other header. *)
Theorem stored_token_is_sent (w : Window) (token : string)
    (h : gmap string string) :
  token <> EmptyString ->
  exists h',
    request_interceptor (Some (setItem "access_token" token w)) (Some h)
    = Some h'
    /\ h' !! "Authorization" = Some ("Bearer " ++ token)
    /\ (forall name, name <> "Authorization" -> h' !! name = h !! name).
Proof.
  intros Hne. unfold request_interceptor. simpl.
  rewrite lookup_insert_eq.
  destruct (String.eqb_spec token EmptyString); [done|]. simpl.
  eexists. split; [reflexivity|].
  split; [by rewrite lookup_insert_eq|].
  intros name Hn. by rewrite lookup_insert_ne.
Qed.
End InterceptorFacts.

(* ================================================================== *)
(** * More worked examples                                             *)
(* ================================================================== *)

(** ["FAILED"] is normalised to ["failed"], and ["failed"] to itself. *)
Lemma normalizeBacktestStatus_idempotent_witness :
  normalizeBacktestStatus no_numerals (JsString "failed") = Some "failed"
  /\ "failed" ∈ BacktestStatusValues.
Proof.
  apply (normalizeBacktestStatus_idempotent no_numerals (JsString "FAILED")).
  reflexivity.
Defined.

(** The payload without trades keeps its [metrics] object. *)
Lemma normalizeBacktestResult_frame_witness :
  exists normalized,
    normalizeBacktestResult no_numerals no_trades_payload = Some normalized
    /\ (exists st,
          normalizeBacktestStatus no_numerals (get no_trades_payload "status")
          = Some st
          /\ normalized !! "status" = Some (JsString st)
          /\ st ∈ BacktestStatusValues)
    /\ (forall key, key <> "status" ->
          key ∉ (NUMERIC_METRIC_KEYS ++ INTEGER_METRIC_KEYS)%list ->
          normalized !! key = no_trades_payload !! key).
Proof.
  eexists. split; [reflexivity|].
  apply (normalizeBacktestResult_frame no_numerals no_trades_payload).
  reflexivity.
Defined.

(** 3.5 becomes 3, and 3 stays 3. *)
Lemma toInteger_integer_witness :
  Numbers.is_integer (of_Z 3) = true
  /\ toInteger no_numerals (JsNumber (of_Z 3)) = Some (JsNumber (of_Z 3)).
Proof.
  apply (toInteger_integer no_numerals (JsNumber (div (of_Z 7) (of_Z 2)))).
  vm_compute. reflexivity.
Defined.

(** -3.5, the binary64 number -7881299347898368 * 2^-51, becomes -3. *)
Lemma toInteger_toward_zero_witness :
  SFopp (div (of_Z 7) (of_Z 2)) = S754_finite true 7881299347898368 (-51)
  /\ exists q r,
       0 <= q
       /\ q * 2 ^ (- -51) <= 7881299347898368 < (q + 1) * 2 ^ (- -51)
       /\ toInteger no_numerals
            (JsNumber (S754_finite true 7881299347898368 (-51)))
          = Some (JsNumber r)
       /\ r = (if q =? 0 then S754_zero true
               else of_Z (if true then - q else q))
       /\ valid_binary prec emax r = true.
Proof.
  split; [vm_compute; reflexivity|].
  apply (toInteger_toward_zero no_numerals true 7881299347898368 (-51));
    [vm_compute; reflexivity | lia].
Defined.

(** The payload without trades holds primitives where it matters. *)
Lemma normalizeBacktestResult_total_on_primitives_witness :
  exists normalized,
    normalizeBacktestResult no_numerals no_trades_payload = Some normalized.
Proof.
  apply (normalizeBacktestResult_total_on_primitives no_numerals
           no_trades_payload).
  - reflexivity.
  - intros key Hkey. apply elem_of_app in Hkey.
    unfold NUMERIC_METRIC_KEYS, INTEGER_METRIC_KEYS in Hkey.
    rewrite !elem_of_cons, !elem_of_nil in Hkey.
    repeat (destruct Hkey as [Hkey|Hkey]); try contradiction;
      rewrite Hkey; reflexivity.
Defined.

(** The infinite profit factor is not shown. *)
Lemma shown_metric_is_finite_witness :
  exists normalized,
    normalizeBacktestResult no_numerals no_trades_payload = Some normalized
    /\ get normalized "profit_factor" <> JsNull
    /\ (BacktestPage.hasDefinedNumber (get normalized "profit_factor") = true
        <-> exists n, get normalized "profit_factor" = JsNumber n
                      /\ Number_isFinite n = true).
Proof.
  eexists. split; [reflexivity|].
  apply (shown_metric_is_finite no_numerals no_trades_payload).
  - reflexivity.
  - apply (bool_decide_unpack _). vm_compute. reflexivity.
Defined.


(** Two items in, two items out, in the same order. *)
Lemma backtests_list_items_spec_witness :
  exists out,
    ApiClient.backtests_list_items no_numerals [no_trades_payload; ∅] = Some out
    /\ length out = length [no_trades_payload; (∅ : gmap string JsValue)]
    /\ forall i item,
         [no_trades_payload; (∅ : gmap string JsValue)] !! i = Some item ->
         exists normalized,
           out !! i = Some normalized
           /\ normalizeBacktestResult no_numerals item = Some normalized.
Proof.
  eexists. split; [reflexivity|].
  apply (backtests_list_items_spec no_numerals [no_trades_payload; ∅]).
  reflexivity.
Defined.


(** Job 7 was handled as completed; the id changes to 8 without a call of
    [runBacktest] in between, and job 8 completes unnoticed. *)
Lemma marker_outlives_id_change_witness :
  let s :=
    {| Hooks.backtestId := Some 7;
       Hooks.completedStateRef := Some "completed";
       Hooks.effectDeps := Some (Some 7, "completed", true, Some (Some "done")) |} in
  (Hooks.run s
     ((Hooks.RunBacktestResolved 8, None, None)
      :: Hooks.polls [ (Some Hooks.running_data, None);
                       (Some Hooks.completed_data, None) ])).2 = [].
Proof.
  intros s.
  apply (marker_outlives_id_change s 7 8 "completed").
  - split; reflexivity.
  - lia.
  - repeat (apply Forall_cons_2;
            [vm_compute; intros H; first [reflexivity | discriminate H]|]).
    apply Forall_nil_2.
Defined.

(** At the end of the overtaken session the marker is ["completed"]. *)
Lemma marker_is_terminal_status_witness :
  Hooks.isTerminal "completed" = true
  /\ exists id,
       Hooks.backtestId (Hooks.run Hooks.initial Hooks.overtaken_session).1
       = Some id.
Proof.
  apply (marker_is_terminal_status Hooks.overtaken_session "completed").
  reflexivity.
Defined.

(** The first completed render of job 7 invalidates the detail of job 7. *)
Lemma handler_spares_status_queries_witness :
  let s :=
    {| Hooks.backtestId := Some 7; Hooks.completedStateRef := None;
       Hooks.effectDeps := None |} in
  ~ BacktestKeys.reaches (BacktestKeys.key_of (Hooks.DetailKey 7))
      (BacktestKeys.status 7)
  /\ (Hooks.DetailKey 7 = Hooks.ListsKey
      \/ exists id, Hooks.backtestId s = Some id
                    /\ Hooks.DetailKey 7 = Hooks.DetailKey id).
Proof.
  intros s.
  apply (handler_spares_status_queries s (Some Hooks.completed_data) None).
  left. apply (bool_decide_unpack _). vm_compute. reflexivity.
Defined.

(** The sample session names the conservative AI strategy. *)
Lemma create_request_names_known_type_witness :
  exists pg effects input,
    NewStrategy.run NewStrategy.opened NewStrategy.sample_session
    = Some (pg, effects)
    /\ NewStrategy.CreateStrategy input ∈ effects
    /\ NewStrategy.strategy_type input = "sentiment_sma_conservative"
    /\ trim_is_empty (NewStrategy.name input) = false
    /\ exists st,
         st ∈ NewStrategy.strategyTypes
         /\ NewStrategy.strategy_type input = NewStrategy.id st
         /\ NewStrategy.description input = Some st.
Proof.
  eexists. eexists. eexists.
  split; [vm_compute; reflexivity|].
  split; [apply list_elem_of_further, list_elem_of_here|].
  split; [reflexivity|].
  eapply (create_request_names_known_type NewStrategy.sample_session).
  - vm_compute. reflexivity.
  - apply list_elem_of_further, list_elem_of_here.
Defined.

(** The session in a hurry sends the periods 50 and 30: each within the
    range of its slider. *)
Lemma create_request_within_slider_ranges_witness :
  exists pg input,
    NewStrategy.run NewStrategy.opened NewStrategy.hasty_session
    = Some (pg, [NewStrategy.CreateStrategy input])
    /\ let p := NewStrategy.config_params (NewStrategy.logic_config input) in
       3 <= NewStrategy.fast_period p <= 50
       /\ 10 <= NewStrategy.slow_period p <= 200
       /\ 1 <= NewStrategy.sentiment_lookback p <= 14
       /\ 0 <= NewStrategy.stop_loss p <= 30
       /\ 0 <= NewStrategy.take_profit p <= 50
       /\ 10 <= NewStrategy.position_size p <= 100.
Proof.
  eexists. eexists.
  split; [vm_compute; reflexivity|].
  eapply (create_request_within_slider_ranges NewStrategy.hasty_session).
  - vm_compute. reflexivity.
  - apply list_elem_of_here.
Defined.

(** EMA is selected, then SMA: the SMA strategy is created with
    [use_ema = true]. *)
Lemma use_ema_is_never_switched_off_witness :
  let pg :=
    (NewStrategy.handle NewStrategy.opened
       (NewStrategy.ClickType "ema_crossover")).1 in
  exists pg' effects input,
    NewStrategy.run pg (tail Wizard.switching_session) = Some (pg', effects)
    /\ effects = [NewStrategy.CreateStrategy input]
    /\ NewStrategy.strategy_type input = "sma_crossover"
    /\ NewStrategy.use_ema (NewStrategy.params (NewStrategy.current pg')) = true
    /\ (NewStrategy.CreateStrategy input ∈ effects ->
        NewStrategy.use_ema
          (NewStrategy.config_params (NewStrategy.logic_config input)) = true).
Proof.
  intros pg. eexists. eexists. eexists.
  split; [vm_compute; reflexivity|].
  split; [reflexivity|].
  split; [reflexivity|].
  eapply (use_ema_is_never_switched_off pg (tail Wizard.switching_session)).
  - reflexivity.
  - reflexivity.
  - vm_compute. reflexivity.
Defined.

(** The sample session is patient, and its request carries the periods 20
    and 50; the session in a hurry is not patient. *)
Lemma patient_request_keeps_period_order_witness :
  Wizard.patient NewStrategy.opened NewStrategy.hasty_session = false
  /\ exists pg effects input,
       NewStrategy.run NewStrategy.opened NewStrategy.sample_session
       = Some (pg, effects)
       /\ NewStrategy.CreateStrategy input ∈ effects
       /\ NewStrategy.fast_period
            (NewStrategy.config_params (NewStrategy.logic_config input)) = 20
       /\ NewStrategy.slow_period
            (NewStrategy.config_params (NewStrategy.logic_config input)) = 50
       /\ NewStrategy.fast_period
            (NewStrategy.config_params (NewStrategy.logic_config input))
          < NewStrategy.slow_period
              (NewStrategy.config_params (NewStrategy.logic_config input)).
Proof.
  split; [vm_compute; reflexivity|].
  eexists. eexists. eexists.
  split; [vm_compute; reflexivity|].
  split; [apply list_elem_of_further, list_elem_of_here|].
  split; [reflexivity|]. split; [reflexivity|].
  eapply (patient_request_keeps_period_order NewStrategy.sample_session).
  - vm_compute. reflexivity.
  - vm_compute. reflexivity.
  - apply list_elem_of_further, list_elem_of_here.
Defined.

(** With [use_ema] true in the component's state only, it can be lost: the
    sliders of a leaving panel write back the [params] of their render. The
    EMA strategy of this session is created with [use_ema = false]. *)
Lemma use_ema_written_back_by_leaving_panel :
  exists pg input,
    NewStrategy.run NewStrategy.opened Wizard.overtaking_session
    = Some (pg, [NewStrategy.CreateStrategy input])
    /\ NewStrategy.strategy_type input = "ema_crossover"
    /\ NewStrategy.use_ema
         (NewStrategy.config_params (NewStrategy.logic_config input)) = false.
Proof.
  eexists. eexists. split; [vm_compute; reflexivity|]. split; reflexivity.
Qed.

(** From step 1 with a type selected: on to step 2 and back. *)
Lemma handleBack_undoes_handleNext_witness :
  let s := NewStrategy.select_type "sma_crossover" NewStrategy.initial in
  NewStrategy.handleBack (NewStrategy.handleNext s).1 = s.
Proof.
  intros s. apply (handleBack_undoes_handleNext s).
  - left. reflexivity.
  - reflexivity.
Defined.

(** The token [abc] is sent as [Bearer abc]. *)
Lemma stored_token_is_sent_witness :
  let w := {| ApiClient.localStorage := ∅; ApiClient.pathname := "/dashboard";
              ApiClient.href := None |} in
  exists h',
    ApiClient.request_interceptor
      (Some (ApiClient.setItem "access_token" "abc" w))
      (Some (<["Content-Type" := "application/json"]> ∅))
    = Some h'
    /\ h' !! "Authorization" = Some ("Bearer " ++ "abc")
    /\ (forall name, name <> "Authorization" ->
          h' !! name
          = (<["Content-Type" := "application/json"]> ∅ : gmap string string)
              !! name).
Proof.
  intros w. apply (stored_token_is_sent w "abc"). discriminate.
Defined.
